(** * pyCRUMBS: the CRUMBS message codec and the I2C leader transport

    A shallow embedding of the two copies of the protocol modules of the
    repository,

    - [src/CRUMBSMessage.py] and [src/CRUMBS.py]  (module [Legacy] below),
    - [src/src/pyCRUMBS/CRUMBSMessage.py] and [src/src/pyCRUMBS/CRUMBS.py]
      (module [pyCRUMBS] below),

    together with the parts of Python's [struct] module, of [logging] and of
    [smbus2] that the two modules call.

    Python integers are [Z], Python floats are binary64 primitive floats,
    [bytes] objects are lists of [Byte.byte].  A call either returns a value
    or raises an exception; the logger and the bus driver are threaded
    through every call as an explicit world. *)

From Stdlib Require Import ZArith List Lia Bool String.
From Stdlib.Strings Require Import Byte.
From Stdlib Require Import PrimFloat FloatOps SpecFloat.
Import ListNotations.

Open Scope Z_scope.
Set Warnings "-inexact-float".

(* ================================================================== *)
(** ** Outcomes of a Python call *)

(** The exception classes that the modelled code can meet.
    [StructError] is [struct.error]; [KeyboardInterrupt] derives from
    [BaseException] only, the others are subclasses of [Exception]. *)
Inductive exn : Type :=
| AttributeError
| TypeError
| StructError
| OverflowError
| OSError
| KeyboardInterrupt.

Definition exn_eqb (a b : exn) : bool :=
  match a, b with
  | AttributeError, AttributeError
  | TypeError, TypeError
  | StructError, StructError
  | OverflowError, OverflowError
  | OSError, OSError
  | KeyboardInterrupt, KeyboardInterrupt => true
  | _, _ => false
  end.

Inductive result (A : Type) : Type :=
| Return (a : A)
| Raise (e : exn).

Arguments Return {A} a.
Arguments Raise {A} e.

Definition rbind {A B} (r : result A) (k : A -> result B) : result B :=
  match r with
  | Return a => k a
  | Raise e => Raise e
  end.

(** [rmap f xs] evaluates [f] on the elements from left to right and stops
    at the first exception. *)
Fixpoint rmap {A B} (f : A -> result B) (xs : list A) : result (list B) :=
  match xs with
  | [] => Return []
  | x :: xs' =>
      rbind (f x) (fun y => rbind (rmap f xs') (fun ys => Return (y :: ys)))
  end.

(* ================================================================== *)
(** ** Bytes *)

Definition bytes := list byte.

Definition byte_of_Z (z : Z) : byte :=
  match Byte.of_N (Z.to_N (z mod 256)) with
  | Some b => b
  | None => x00
  end.

Definition Z_of_byte (b : byte) : Z := Z.of_N (Byte.to_N b).

(** [int.to_bytes(4, "little")] of a 32-bit word. *)
Definition le32 (w : Z) : bytes :=
  [ byte_of_Z w;
    byte_of_Z (Z.shiftr w 8);
    byte_of_Z (Z.shiftr w 16);
    byte_of_Z (Z.shiftr w 24) ].

(** [int.from_bytes(bs, "little")]. *)
Fixpoint le_to_Z (bs : bytes) : Z :=
  match bs with
  | [] => 0
  | b :: bs' => Z_of_byte b + 256 * le_to_Z bs'
  end.

(* ================================================================== *)
(** ** The [struct] module, for the format ["<BB6fB"] *)

Module struct.

(** The C cast [(float)x] of a double: rounding to nearest even into
    binary32 (24 bits of precision, [emax = 128]). *)
Definition float_to_binary32 (x : float) : spec_float :=
    match Prim2SF x with
    | S754_finite s m e => binary_round 24 128 s m e
    | sf => sf
    end.

Definition is_infinity (y : spec_float) : bool :=
    match y with
    | S754_infinity _ => true
    | _ => false
    end.

Definition sign_bit (s : bool) : Z := if s then 2 ^ 31 else 0.

(** The 32-bit pattern of a binary32 value.  A finite value [m * 2^e] of
    binary32 has [e >= -149]; [m < 2^23] is subnormal (exponent field 0),
    otherwise the leading bit of [m] is the implicit one and carries into
    the exponent field. *)
Definition binary32_bits (y : spec_float) : Z :=
    match y with
    | S754_zero s => sign_bit s
    | S754_infinity s => sign_bit s + 255 * 2 ^ 23
    | S754_nan => 255 * 2 ^ 23 + 2 ^ 22
    | S754_finite s m e => sign_bit s + (e + 149) * 2 ^ 23 + Zpos m
    end.

Definition bits_binary32 (w : Z) : spec_float :=
    let s := Z.testbit w 31 in
    let E := Z.land (Z.shiftr w 23) 255 in
    let f := Z.land w (2 ^ 23 - 1) in
    if E =? 255 then (if f =? 0 then S754_infinity s else S754_nan)
    else if E =? 0 then
      match f with
      | Zpos p => S754_finite s p (-149)
      | _ => S754_zero s
      end
    else
      match 2 ^ 23 + f with
      | Zpos p => S754_finite s p (E - 150)
      | _ => S754_nan
      end.

(** Format code [B]: an unsigned byte; out of range is [struct.error]. *)
Definition pack_B (v : Z) : result bytes :=
    if (0 <=? v) && (v <=? 255) then Return [byte_of_Z v]
    else Raise StructError.

(** A finite double whose cast to binary32 is infinite does not fit. *)
Definition float_too_large (x : float) : bool :=
    is_infinity (float_to_binary32 x) && negb (is_infinity (Prim2SF x)).

(** Format code [f] in little-endian mode: the double is cast to binary32;
    "float too large to pack with f format" is an [OverflowError]. *)
Definition pack_f (x : float) : result bytes :=
    if float_too_large x then Raise OverflowError
    else Return (le32 (binary32_bits (float_to_binary32 x))).

Definition unpack_B (b : byte) : Z := Z_of_byte b.

Definition unpack_f (bs : bytes) : float :=
    SF2Prim (bits_binary32 (le_to_Z bs)).

(** [struct.calcsize("<BB6fB")]. *)
Definition calcsize : nat := 27%nat.

(** [struct.pack("<BB6fB", a, b, *fs, c)].  The number of items is checked
    first (9 are expected, so [fs] must have 6 elements), then the items
    are packed from left to right. *)
Definition pack_BB6fB (a b : Z) (fs : list float) (c : Z) : result bytes :=
    if negb (Nat.eqb (2 + List.length fs + 1) 9) then Raise StructError
    else
      rbind (pack_B a) (fun b0 =>
      rbind (pack_B b) (fun b1 =>
      rbind (rmap pack_f fs) (fun bfs =>
      rbind (pack_B c) (fun b26 =>
      Return (b0 ++ b1 ++ List.concat bfs ++ b26))))).

(** Consecutive 4-byte groups of a buffer. *)
Fixpoint chunks4 (n : nat) (bs : bytes) : list bytes :=
    match n with
    | O => []
    | S n' => firstn 4 bs :: chunks4 n' (skipn 4 bs)
    end.

(** [struct.unpack("<BB6fB", buffer)]: the buffer must have exactly
    [calcsize] bytes.  The 9 unpacked items are returned as
    [(unpacked[0], unpacked[1], unpacked[2:8], unpacked[8])]. *)
Definition unpack_BB6fB (buffer : bytes) : result (Z * Z * list float * Z) :=
    if negb (Nat.eqb (List.length buffer) calcsize) then Raise StructError
    else
      match buffer with
      | b0 :: b1 :: rest =>
          Return (unpack_B b0, unpack_B b1,
                  List.map unpack_f (chunks4 6 rest),
                  unpack_B (nth 24 rest x00))
      | _ => Raise StructError
      end.

End struct.

(* ================================================================== *)
(** ** The world: [logging] and [smbus2] *)

Inductive level : Type := DEBUG | INFO | ERROR.

(** The logging calls of the two copies of [CRUMBS.py], one constructor per
    call site text.  The interpolated arguments are not recorded. *)
Inductive log_msg : Type :=
| BusOpened
| EncodedMessage
| EncodingError
| BufferTooSmall
| DecodedMessage
| DecodingError
| SizeMismatch
| MessageSent
| BusNotOpenSend
| FailedToSend
| ReceivedBytes
| BusNotOpenRequest
| FailedToRequest
| BusClosed.

Definition format (m : log_msg) : string :=
  match m with
  | BusOpened => "I2C bus %d opened as master."
  | EncodedMessage => "Encoded message: %s"
  | EncodingError => "Encoding error: %s"
  | BufferTooSmall => "Buffer size too small for decoding. Received %d bytes."
  | DecodedMessage => "Decoded message: %s"
  | DecodingError => "Decoding error: %s"
  | SizeMismatch => "Encoded message size mismatch. Expected %d bytes, got %d."
  | MessageSent => "Message sent to address 0x%02X"
  | BusNotOpenSend =>
      "I2C bus is not open. Call begin() before sending messages."
  | FailedToSend => "Failed to send message: %s"
  | ReceivedBytes => "Received %d bytes from address 0x%02X"
  | BusNotOpenRequest =>
      "I2C bus is not open. Call begin() before requesting messages."
  | FailedToRequest => "Failed to request message: %s"
  | BusClosed => "I2C bus closed."
  end%string.

Definition log_record : Type := level * log_msg.

(** An [SMBus] object, the bus handle: the bus it was made for and its
    identity (the objects are numbered as they are created).  Objects of
    this class define neither [__bool__] nor [__len__], so every one of them
    is true in a condition. *)
Record SMBus : Type := { bus_id : Z; serial : nat }.

Definition SMBus_eqb (a b : SMBus) : bool :=
  Z.eqb (bus_id a) (bus_id b) && Nat.eqb (serial a) (serial b).

(** The [i2c_msg] structure of smbus2 as it is handed to [i2c_rdwr]: the
    16-bit [addr] field and, for a write, the bytes to send, for a read,
    the number of bytes asked for. *)
Inductive i2c_msg : Type :=
| I2C_M_WR (addr : Z) (buf : bytes)
| I2C_M_RD (addr : Z) (len : nat).

(** [i2c_msg.write(address, buf)] and [i2c_msg.read(address, length)]: the
    address is stored in a [c_uint16] field, which keeps its low 16 bits. *)
Definition i2c_msg_write (address : Z) (buf : bytes) : i2c_msg :=
  I2C_M_WR (address mod 65536) buf.

Definition i2c_msg_read (address : Z) (length : nat) : i2c_msg :=
  I2C_M_RD (address mod 65536) length.

(** The value of a pointer of the platform, 4 or 8 bytes, and
    [bytes(pointer)], the bytes of the pointer itself. *)
Inductive pointer : Type :=
| Pointer32 (b0 b1 b2 b3 : byte)
| Pointer64 (b0 b1 b2 b3 b4 b5 b6 b7 : byte).

Definition bytes_of_pointer (p : pointer) : bytes :=
  match p with
  | Pointer32 b0 b1 b2 b3 => [b0; b1; b2; b3]
  | Pointer64 b0 b1 b2 b3 b4 b5 b6 b7 => [b0; b1; b2; b3; b4; b5; b6; b7]
  end.

(** What reaches the bus driver. *)
Inductive bus_call : Type :=
| CallOpen (bus : Z)
| CallRdwr (h : SMBus) (msg : i2c_msg)
| CallClose (h : SMBus).

(** What lies below the calls is an external collaborator: its answer may
    depend on the calls made before (most recent first).  [on_open] is the
    outcome of opening the device, [on_rdwr] the outcome of [i2c_rdwr] (for
    a read, the content of the message buffer after the transfer),
    [on_close] the outcome of [os.close] on the file descriptor of the
    handle, and [buf_pointer] the value of the [buf] field of a message,
    the place where its buffer was allocated. *)
Record driver : Type := {
  on_open : list bus_call -> Z -> result unit;
  on_rdwr : list bus_call -> SMBus -> i2c_msg -> result bytes;
  on_close : list bus_call -> SMBus -> result unit;
  buf_pointer : list bus_call -> i2c_msg -> pointer
}.

(** Calls and log records are kept most recent first.  [fds] holds the
    handles whose file descriptor is set, [os_closes] the calls of
    [os.close], most recent first. *)
Record world : Type := {
  drv : driver;
  calls : list bus_call;
  log : list log_record;
  fds : list SMBus;
  os_closes : list SMBus
}.

Definition IO (A : Type) : Type := world -> result A * world.

Definition ret {A} (a : A) : IO A := fun w => (Return a, w).

Definition raise {A} (e : exn) : IO A := fun w => (Raise e, w).

Definition bind {A B} (m : IO A) (k : A -> IO B) : IO B :=
  fun w =>
    match m w with
    | (Return a, w') => k a w'
    | (Raise e, w') => (Raise e, w')
    end.

Definition lift {A} (r : result A) : IO A := fun w => (r, w).

(** [try: body  except C as e: handler], where [catches e] tells whether
    the exception is an instance of [C]. *)
Definition try_except {A} (body : IO A) (catches : exn -> bool)
    (handler : exn -> IO A) : IO A :=
  fun w =>
    match body w with
    | (Raise e, w') => if catches e then handler e w' else (Raise e, w')
    | r => r
    end.

Definition struct_error (e : exn) : bool := exn_eqb e StructError.

(** [except Exception] catches every class but [KeyboardInterrupt]. *)
Definition Exception (e : exn) : bool := negb (exn_eqb e KeyboardInterrupt).

Declare Scope io_scope.
Delimit Scope io_scope with io.
Notation "x <- m ;; k" := (bind m (fun x => k))
  (at level 61, m at next level, right associativity) : io_scope.
Notation "m ;; k" := (bind m (fun _ => k))
  (at level 61, right associativity) : io_scope.
Open Scope io_scope.

Definition add_log (r : log_record) (w : world) : world :=
  {| drv := drv w; calls := calls w; log := r :: log w;
     fds := fds w; os_closes := os_closes w |}.

Definition add_call (c : bus_call) (w : world) : world :=
  {| drv := drv w; calls := c :: calls w; log := log w;
     fds := fds w; os_closes := os_closes w |}.

(** The file descriptor of [h] is set. *)
Definition set_fd (h : SMBus) (w : world) : world :=
  {| drv := drv w; calls := calls w; log := log w;
     fds := h :: fds w; os_closes := os_closes w |}.

(** [os.close] is called on the file descriptor of [h]. *)
Definition add_os_close (h : SMBus) (w : world) : world :=
  {| drv := drv w; calls := calls w; log := log w;
     fds := fds w; os_closes := h :: os_closes w |}.

(** [h.fd = None]. *)
Definition clear_fd (h : SMBus) (w : world) : world :=
  {| drv := drv w; calls := calls w; log := log w;
     fds := filter (fun x => negb (SMBus_eqb x h)) (fds w);
     os_closes := os_closes w |}.

Definition fd_set (h : SMBus) (w : world) : bool :=
  existsb (fun x => SMBus_eqb x h) (fds w).

Definition logger (l : level) (m : log_msg) : IO unit :=
  fun w => (Return tt, add_log (l, m) w).

(** [SMBus(bus_number)]: the constructor opens the device and keeps its
    file descriptor; when opening fails no object is made. *)
Definition SMBus_new (n : Z) : IO SMBus :=
  fun w =>
    let h := {| bus_id := n; serial := List.length (calls w) |} in
    match on_open (drv w) (calls w) n with
    | Return _ => (Return h, set_fd h (add_call (CallOpen n) w))
    | Raise e => (Raise e, add_call (CallOpen n) w)
    end.

(** [bus.i2c_rdwr(msg)]. *)
Definition i2c_rdwr (h : SMBus) (msg : i2c_msg) : IO bytes :=
  fun w => (on_rdwr (drv w) (calls w) h msg, add_call (CallRdwr h msg) w).

(** [bytes(msg.buf)]: [buf] is a pointer field, so this is the value of the
    pointer and not the buffer it points to. *)
Definition bytes_of_buf (msg : i2c_msg) : IO bytes :=
  fun w => (Return (bytes_of_pointer (buf_pointer (drv w) (calls w) msg)), w).

(** [bus.close()] of smbus2:
    [if self.fd: os.close(self.fd); self.fd = None].  The file descriptor of
    an opened device is not 0. *)
Definition SMBus_close (h : SMBus) : IO unit :=
  fun w =>
    let w1 := add_call (CallClose h) w in
    if fd_set h w then
      match on_close (drv w) (calls w) h with
      | Return _ => (Return tt, clear_fd h (add_os_close h w1))
      | Raise e => (Raise e, add_os_close h w1)
      end
    else (Return tt, w1).

(* ================================================================== *)
(** ** The message classes *)

(** [src/CRUMBSMessage.py]: a dataclass without [__post_init__]. *)
Module Legacy.

Record CRUMBSMessage : Type := {
    typeID : Z;
    commandType : Z;
    data : list float;
    errorFlags : Z
  }.

Definition default_data : list float := repeat 0%float 6.

End Legacy.

(** [src/src/pyCRUMBS/CRUMBSMessage.py]. *)
Module pyCRUMBS.

Definition CRUMBS_DATA_LENGTH : nat := 7%nat.
Definition CRUMBS_MESSAGE_SIZE : nat := 31%nat.

Record CRUMBSMessage : Type := {
    typeID : Z;
    commandType : Z;
    data : list float;
    crc8 : Z
  }.

Definition default_data : list float := repeat 0%float CRUMBS_DATA_LENGTH.

Definition __post_init__ (self : CRUMBSMessage) : CRUMBSMessage :=
    let self1 :=
      if negb (Nat.eqb (List.length (data self)) CRUMBS_DATA_LENGTH) then
        let values := data self in
        let values :=
          if Nat.ltb (List.length values) CRUMBS_DATA_LENGTH then
            values ++ repeat 0%float
                        (CRUMBS_DATA_LENGTH - List.length values)
          else firstn CRUMBS_DATA_LENGTH values in
        {| typeID := typeID self; commandType := commandType self;
           data := values; crc8 := crc8 self |}
      else self in
    {| typeID := typeID self1; commandType := commandType self1;
       data := data self1; crc8 := Z.land (crc8 self1) 255 |}.

(** [CRUMBSMessage(typeID=t, commandType=c, data=d, crc8=k)]: the generated
    [__init__] stores the fields and calls [__post_init__]. *)
Definition __init__ (t c : Z) (d : list float) (k : Z) : CRUMBSMessage :=
    __post_init__ {| typeID := t; commandType := c; data := d; crc8 := k |}.

End pyCRUMBS.

(** What [CRUMBS.py] asks of a message object: the four attributes it reads
    in [encode_message] and the constructor call of [decode_message],
    [CRUMBSMessage(typeID=.., commandType=.., data=.., errorFlags=..)]. *)
Class MessageClass (M : Type) : Type := {
  get_typeID : M -> Z;
  get_commandType : M -> Z;
  get_data : M -> list float;
  get_errorFlags : M -> result Z;
  new_errorFlags : Z -> Z -> list float -> Z -> result M
}.

#[global] Instance Legacy_message : MessageClass Legacy.CRUMBSMessage := {
  get_typeID := Legacy.typeID;
  get_commandType := Legacy.commandType;
  get_data := Legacy.data;
  get_errorFlags := fun m => Return (Legacy.errorFlags m);
  new_errorFlags := fun t c d e =>
    Return {| Legacy.typeID := t; Legacy.commandType := c;
              Legacy.data := d; Legacy.errorFlags := e |}
}.

(** The class of the package has no attribute [errorFlags], and its
    [__init__] has no such keyword. *)
#[global] Instance pyCRUMBS_message : MessageClass pyCRUMBS.CRUMBSMessage := {
  get_typeID := pyCRUMBS.typeID;
  get_commandType := pyCRUMBS.commandType;
  get_data := pyCRUMBS.data;
  get_errorFlags := fun _ => Raise AttributeError;
  new_errorFlags := fun _ _ _ _ => Raise TypeError
}.

(* ================================================================== *)
(** ** [CRUMBS.py] *)

(** [__init__], [begin], [encode_message], [decode_message] and [close] have
    the same text in [src/CRUMBS.py] and in [src/src/pyCRUMBS/CRUMBS.py], up
    to type annotations; they are embedded once, over any message class.
    [send_message] and [request_message] differ and are embedded twice. *)
Module CRUMBS.

Definition CRUMBS_MESSAGE_SIZE : nat := 27%nat.

(** The instance attributes of a [CRUMBS] object. *)
Record t : Type := {
    bus_number : Z;
    bus : option SMBus
  }.

Definition __init__ (bus_number : Z) : t :=
    {| bus_number := bus_number; bus := None |}.

(** [begin] is the only method that assigns an attribute of [self]; it
    returns the object after the call. *)
Definition begin (self : t) : IO t :=
    h <- SMBus_new (bus_number self) ;;
    logger INFO BusOpened ;;
    ret {| bus_number := bus_number self; bus := Some h |}.

(** [close] assigns no attribute: the object after the call is [self]. *)
Definition close (self : t) : IO unit :=
    match bus self with
    | Some h => SMBus_close h ;; logger INFO BusClosed
    | None => ret tt
    end.

Section Codec.
Context {M : Type} `{MessageClass M}.

Definition encode_message (message : M) : IO bytes :=
      try_except
        (errorFlags <- lift (get_errorFlags message) ;;
         encoded <- lift (struct.pack_BB6fB
                            (get_typeID message) (get_commandType message)
                            (get_data message) errorFlags) ;;
         logger DEBUG EncodedMessage ;;
         ret encoded)
        struct_error
        (fun _ => logger ERROR EncodingError ;; ret []).

Definition decode_message (buffer : bytes) : IO (option M) :=
      if Nat.ltb (List.length buffer) CRUMBS_MESSAGE_SIZE then
        logger ERROR BufferTooSmall ;; ret None
      else
        try_except
          (unpacked <- lift (struct.unpack_BB6fB
                               (firstn CRUMBS_MESSAGE_SIZE buffer)) ;;
           let '(u0, u1, u2_8, u8) := unpacked in
           msg <- lift (new_errorFlags u0 u1 u2_8 u8) ;;
           logger DEBUG DecodedMessage ;;
           ret (Some msg))
          struct_error
          (fun _ => logger ERROR DecodingError ;; ret None).

End Codec.

(** [send_message] and [request_message] of [src/CRUMBS.py].  Without a
    handle [self.bus.i2c_rdwr] raises AttributeError; the buffer decoded is
    [bytes(list(read))], the content of the message buffer. *)
Module Legacy.
Section Transport.
Context {M : Type} `{MessageClass M}.

Definition send_message (self : t) (message : M) (target_address : Z)
        : IO unit :=
        encoded <- encode_message message ;;
        if negb (Nat.eqb (List.length encoded) CRUMBS_MESSAGE_SIZE) then
          logger ERROR SizeMismatch
        else
          try_except
            (let write := i2c_msg_write target_address encoded in
             match bus self with
             | Some h => i2c_rdwr h write ;; logger INFO MessageSent
             | None => raise AttributeError
             end)
            Exception
            (fun _ => logger ERROR FailedToSend).

Definition request_message (self : t) (target_address : Z)
        : IO (option M) :=
        try_except
          (let read := i2c_msg_read target_address CRUMBS_MESSAGE_SIZE in
           match bus self with
           | Some h =>
               buffer <- i2c_rdwr h read ;;
               logger INFO ReceivedBytes ;;
               decode_message buffer
           | None => raise AttributeError
           end)
          Exception
          (fun _ => logger ERROR FailedToRequest ;; ret None).

End Transport.
End Legacy.

(** [send_message] and [request_message] of
    [src/src/pyCRUMBS/CRUMBS.py].  The buffer decoded is
    [bytes(read.buf)]. *)
Module Package.
Section Transport.
Context {M : Type} `{MessageClass M}.

Definition send_message (self : t) (message : M) (target_address : Z)
        : IO bool :=
        encoded <- encode_message message ;;
        if negb (Nat.eqb (List.length encoded) CRUMBS_MESSAGE_SIZE) then
          logger ERROR SizeMismatch ;; ret false
        else
          try_except
            (let write := i2c_msg_write target_address encoded in
             match bus self with
             | Some h =>
                 i2c_rdwr h write ;; logger INFO MessageSent ;; ret true
             | None => logger ERROR BusNotOpenSend ;; ret false
             end)
            Exception
            (fun _ => logger ERROR FailedToSend ;; ret false).

Definition request_message (self : t) (target_address : Z)
        : IO (option M) :=
        try_except
          (let read := i2c_msg_read target_address CRUMBS_MESSAGE_SIZE in
           match bus self with
           | Some h =>
               i2c_rdwr h read ;;
               buffer <- bytes_of_buf read ;;
               logger INFO ReceivedBytes ;;
               decode_message buffer
           | None => logger ERROR BusNotOpenRequest ;; ret None
           end)
          Exception
          (fun _ => logger ERROR FailedToRequest ;; ret None).

End Transport.
End Package.

End CRUMBS.

(* ================================================================== *)
(** ** The vocabulary of the specification *)

(** Modelled from the spec: the CRC-8 engine (the generated [crc8_nibble.c]
    and [crc8_adapter.c] are not among the sources): width 8, polynomial
    0x07, initial value 0x00, no reflection, no final XOR, computed bit by
    bit. *)
Module CRC8.

Definition shift_bit (crc : Z) : Z :=
  if Z.testbit crc 7 then Z.land (Z.lxor (Z.shiftl crc 1) 7) 255
  else Z.land (Z.shiftl crc 1) 255.

Definition update (crc : Z) (b : byte) : Z :=
  Nat.iter 8 shift_bit (Z.lxor crc (Z_of_byte b)).

Definition compute (bs : bytes) : Z := fold_left update bs 0.

End CRC8.

(** Modelled from the spec: the 31-byte frame of section 4.2, byte 0 the
    typeID, byte 1 the commandType, bytes 2-29 the seven floats as
    little-endian binary32, byte 30 the CRC-8 of bytes 0-29.  No function of
    the sources builds it. *)
Module Frame.

Definition body (m : pyCRUMBS.CRUMBSMessage) : bytes :=
  byte_of_Z (pyCRUMBS.typeID m) :: byte_of_Z (pyCRUMBS.commandType m)
  :: flat_map (fun x => le32 (struct.binary32_bits (struct.float_to_binary32 x)))
       (pyCRUMBS.data m).

Definition encode (m : pyCRUMBS.CRUMBSMessage) : bytes :=
  body m ++ [byte_of_Z (CRC8.compute (body m))].

End Frame.

(** The failure kinds of section 7 of the specification. *)
Inductive failure : Type :=
| FrameTooShort
| ChecksumMismatch
| NotOpen
| InvalidAddress
| BusUnavailable
| TransportError.

(** The code reports a failure by logging an error and returning [None] or
    [False].  The error texts that correspond to a failure kind of the
    specification; no text of the sources speaks of a checksum or of an
    invalid address. *)
Definition failure_of (m : log_msg) : option failure :=
  match m with
  | BufferTooSmall => Some FrameTooShort
  | BusNotOpenSend | BusNotOpenRequest => Some NotOpen
  | FailedToSend | FailedToRequest => Some TransportError
  | _ => None
  end.

(** The records logged, and the driver calls made, between two worlds. *)
Definition new_records (w w' : world) : list log_record :=
  firstn (List.length (log w') - List.length (log w)) (log w').

Definition new_calls (w w' : world) : list bus_call :=
  firstn (List.length (calls w') - List.length (calls w)) (calls w').

(** The failure kinds reported between two worlds, most recent first. *)
Definition reported (w w' : world) : list failure :=
  flat_map (fun r : log_record =>
              match r with
              | (ERROR, m) =>
                  match failure_of m with Some f => [f] | None => [] end
              | _ => []
              end)
           (new_records w w').

(** A call started in [w] fails with [f]: it returns its failure value
    ([None] or [False]) and [f] is what it reported. *)
Definition fails_with {A} (f : failure) (failure_value : A) (w : world)
    (out : result A * world) : Prop :=
  fst out = Return failure_value /\ reported w (snd out) = [f].

(* ================================================================== *)
(** ** Concrete inputs *)

(** A driver that behaves like an [SMBus] on a healthy bus: opening and
    closing succeed, a transfer on a handle that has been closed raises
    [OSError], a write succeeds, a read yields as many zero bytes as asked
    for. *)
Definition closed_before (h : SMBus) (c : bus_call) : bool :=
  match c with
  | CallClose h' => SMBus_eqb h' h
  | _ => false
  end.

Definition mock_driver : driver := {|
  on_open := fun _ _ => Return tt;
  on_rdwr := fun history h msg =>
    if existsb (closed_before h) history then Raise OSError
    else match msg with
         | I2C_M_WR _ buf => Return buf
         | I2C_M_RD _ n => Return (repeat x00 n)
         end;
  on_close := fun _ _ => Return tt;
  buf_pointer := fun _ _ => Pointer64 x50 x82 x00 x25 xd4 x7f x00 x00
|}.

Definition w0 : world :=
  {| drv := mock_driver; calls := []; log := []; fds := [];
     os_closes := [] |}.

(** The message of the concrete scenario of the specification. *)
Definition scenario_message : pyCRUMBS.CRUMBSMessage :=
  pyCRUMBS.__init__ 1 2 [75; 1; 0; 65; 2; 7; 3.14]%float 0.

(** A message of the legacy class, six floats and an errorFlags byte. *)
Definition legacy_message : Legacy.CRUMBSMessage :=
  {| Legacy.typeID := 1; Legacy.commandType := 2;
     Legacy.data := [75; 1; 0; 65; 2; 7]%float; Legacy.errorFlags := 0 |}.

(** A legacy message with a float beyond the range of binary32. *)
Definition huge_message : Legacy.CRUMBSMessage :=
  {| Legacy.typeID := 1; Legacy.commandType := 2;
     Legacy.data := [1e39; 0; 0; 0; 0; 0]%float; Legacy.errorFlags := 0 |}.

(** A legacy message whose typeID is not a byte. *)
Definition wide_message : Legacy.CRUMBSMessage :=
  {| Legacy.typeID := 256; Legacy.commandType := 2;
     Legacy.data := [75; 1; 0; 65; 2; 7]%float; Legacy.errorFlags := 0 |}.

(** The frame of [scenario_message] with the lowest bit of its last byte
    flipped. *)
Definition corrupted_frame : bytes :=
  Frame.body scenario_message
  ++ [byte_of_Z (Z.lxor (CRC8.compute (Frame.body scenario_message)) 1)].

(** The frame of [scenario_message] without its last byte: 30 bytes. *)
Definition truncated_frame : bytes := Frame.body scenario_message.

(** [decode(encode(m))] with the two methods of [CRUMBS.py]. *)
Definition roundtrip {M} `{MessageClass M} (m : M) : IO (option M) :=
  encoded <- CRUMBS.encode_message m ;;
  CRUMBS.decode_message encoded.

(** The transport and the world after [c = CRUMBS(1); c.begin()] in [w0]. *)
Definition opened_transport : CRUMBS.t :=
  {| CRUMBS.bus_number := 1;
     CRUMBS.bus := Some {| bus_id := 1; serial := 0 |} |}.

Definition opened_world : world :=
  add_log (INFO, BusOpened)
    (set_fd {| bus_id := 1; serial := 0 |} (add_call (CallOpen 1) w0)).

(** [c = CRUMBS(1); c.begin(); c.close()], then one more call [k c]. *)
Definition after_close {A} (k : CRUMBS.t -> IO A) : IO A :=
  c <- CRUMBS.begin (CRUMBS.__init__ 1) ;;
  CRUMBS.close c ;;
  k c.

(** Unfolding of the operations of [IO]. *)
Ltac io_unfold :=
  unfold bind, lift, ret, raise, logger, try_except in *; simpl in *.

(* ================================================================== *)
(** ** [examples/leader_example.py] *)

From Stdlib Require Import Ascii.

Module LeaderExample.

(** [s.split(",")]: the fields between the commas, empty ones included. *)
Fixpoint split_comma (s : string) : list string :=
  match s with
  | EmptyString => [EmptyString]
  | String c s' =>
      if Ascii.eqb c ","%char then EmptyString :: split_comma s'
      else match split_comma s' with
           | p :: ps => String c p :: ps
           | [] => [String c EmptyString]
           end
  end.

(** [s.lower().startswith("0x")]: only the digit 0 lowers to ["0"], and
    only the letters x and X lower to ["x"]. *)
Definition lower_startswith_0x (s : string) : bool :=
  match s with
  | String c0 (String c1 _) =>
      Ascii.eqb c0 "0"%char && (Ascii.eqb c1 "x"%char || Ascii.eqb c1 "X"%char)
  | _ => false
  end.

(** The error records of the logger of the example. *)
Inductive log_text : Type :=
| IncorrectFieldCount (got : nat)
| FailedToParse.

Section Builtins.

(** The builtins of Python that [parse_message] applies to its fields:
    [str.strip], [int(s, base)] and [float(s)].  [None] stands for the
    [ValueError] of a text that does not parse. *)
Variable strip : string -> string.
Variable int_ : string -> Z -> option Z.
Variable float_ : string -> option float.

(** The list comprehension [[float(x.strip()) for x in xs]], left to right;
    [None] when one of the calls raises. *)
Fixpoint floats_of (xs : list string) : option (list float) :=
  match xs with
  | [] => Some []
  | x :: xs' =>
      match float_ (strip x) with
      | Some f =>
          match floats_of xs' with
          | Some fs => Some (f :: fs)
          | None => None
          end
      | None => None
      end
  end.

(** The body of the [try] of [parse_message]; [None] when a [ValueError] is
    raised, which the [except] clause catches. *)
Definition parse_fields (parts : list string)
  : option (Z * pyCRUMBS.CRUMBSMessage) :=
  let target_address_str := strip (nth 0 parts EmptyString) in
  match (if lower_startswith_0x target_address_str
         then int_ target_address_str 16
         else int_ target_address_str 10) with
  | None => None
  | Some target_address =>
      match int_ (strip (nth 1 parts EmptyString)) 10 with
      | None => None
      | Some typeID =>
          match int_ (strip (nth 2 parts EmptyString)) 10 with
          | None => None
          | Some commandType =>
              match floats_of (firstn 7 (skipn 3 parts)) with
              | None => None
              | Some data =>
                  Some (target_address,
                        pyCRUMBS.__init__ typeID commandType data 0)
              end
          end
      end
  end.

(** [parse_message(input_str)]: the pair it returns and what it logs. *)
Definition parse_message (input_str : string)
  : (option Z * option pyCRUMBS.CRUMBSMessage) * list log_text :=
  let parts := split_comma input_str in
  if negb (Nat.eqb (List.length parts) 10) then
    ((None, None), [IncorrectFieldCount (List.length parts)])
  else
    match parse_fields parts with
    | Some (target_address, msg) => ((Some target_address, Some msg), [])
    | None => ((None, None), [FailedToParse])
    end.

End Builtins.

(** The number of commas of a text. *)
Fixpoint commas (s : string) : nat :=
  match s with
  | EmptyString => 0%nat
  | String c s' => ((if Ascii.eqb c ","%char then 1 else 0) + commas s')%nat
  end.

End LeaderExample.

(* ================================================================== *)
(** ** More concrete inputs *)

(** A legacy-class object with seven floats, as the example builds them. *)
Definition seven_float_message : Legacy.CRUMBSMessage :=
  {| Legacy.typeID := 1; Legacy.commandType := 2;
     Legacy.data := [75; 1; 0; 65; 2; 7; 3.14]%float;
     Legacy.errorFlags := 0 |}.

(** A legacy message whose floats are not all values of binary32. *)
Definition pi_message : Legacy.CRUMBSMessage :=
  {| Legacy.typeID := 7; Legacy.commandType := 9;
     Legacy.data := [3.14; -0.5; 1e-3; 0; 2; 1e10]%float;
     Legacy.errorFlags := 255 |}.

(** The world after [begin] on any transport of bus 1, and the 27 bytes of
    [legacy_message]. *)
Definition legacy_frame : bytes :=
  [x01; x02; x00; x00; x96; x42; x00; x00; x80; x3f;
   x00; x00; x00; x00; x00; x00; x82; x42; x00; x00;
   x00; x40; x00; x00; xe0; x40; x00].

(** A driver whose reads deliver [legacy_frame] followed by four more
    bytes, and whose writes fail. *)
Definition frame_driver : driver := {|
  on_open := fun _ _ => Return tt;
  on_rdwr := fun _ _ msg =>
    match msg with
    | I2C_M_WR _ _ => Raise OSError
    | I2C_M_RD _ _ => Return (legacy_frame ++ [xde; xad; xbe; xef])
    end;
  on_close := fun _ _ => Return tt;
  buf_pointer := fun _ _ => Pointer32 x50 x82 x00 x25
|}.

(** A driver whose transfers are interrupted from the keyboard. *)
Definition interrupted_driver : driver := {|
  on_open := fun _ _ => Return tt;
  on_rdwr := fun _ _ _ => Raise KeyboardInterrupt;
  on_close := fun _ _ => Return tt;
  buf_pointer := fun _ _ => Pointer64 x50 x82 x00 x25 xd4 x7f x00 x00
|}.

(** A driver that cannot open the bus. *)
Definition dead_driver : driver := {|
  on_open := fun _ _ => Raise OSError;
  on_rdwr := fun _ _ _ => Raise OSError;
  on_close := fun _ _ => Raise OSError;
  buf_pointer := fun _ _ => Pointer64 x50 x82 x00 x25 xd4 x7f x00 x00
|}.

Definition w_frame : world :=
  {| drv := frame_driver; calls := []; log := []; fds := [];
     os_closes := [] |}.

Definition w_dead : world :=
  {| drv := dead_driver; calls := []; log := []; fds := [];
     os_closes := [] |}.

Definition w_interrupted : world :=
  {| drv := interrupted_driver; calls := []; log := []; fds := [];
     os_closes := [] |}.

(** The four bytes [struct.pack("<f", x)] yields for a float that fits, and
    the double that unpacking them gives back. *)
Definition binary32_le (x : float) : bytes :=
  le32 (struct.binary32_bits (struct.float_to_binary32 x)).

Definition binary32_round (x : float) : float :=
  struct.unpack_f (binary32_le x).

(** The conditions under which [struct.pack("<BB6fB", ...)] raises
    [struct.error] on a legacy message: a wrong number of items, or a byte
    field out of range met before any float that is too large. *)
Definition is_ubyte (v : Z) : bool := (0 <=? v) && (v <=? 255).

Definition floats_fit (fs : list float) : bool :=
  forallb (fun x => negb (struct.float_too_large x)) fs.

Definition pack_struct_error (m : Legacy.CRUMBSMessage) : bool :=
  negb (Nat.eqb (List.length (Legacy.data m)) 6)
  || negb (is_ubyte (Legacy.typeID m))
  || negb (is_ubyte (Legacy.commandType m))
  || (floats_fit (Legacy.data m) && negb (is_ubyte (Legacy.errorFlags m))).

(* ================================================================== *)
(** ** Sanity of the embedding of [struct] and of the CRC-8 *)

Example pack_f_pi : struct.pack_f 3.14 = Return [xc3; xf5; x48; x40].
Proof. vm_compute. reflexivity. Qed.

Example pack_f_75 : struct.pack_f 75 = Return [x00; x00; x96; x42].
Proof. vm_compute. reflexivity. Qed.

Example pack_f_1e39 : struct.pack_f 1e39 = Raise OverflowError.
Proof. vm_compute. reflexivity. Qed.

Example unpack_f_pi :
  struct.unpack_f [xc3; xf5; x48; x40] = 3.1400001049041748%float.
Proof. vm_compute. reflexivity. Qed.

(** The check value of CRC-8: the checksum of the ASCII digits 1 to 9. *)
Example crc8_check_value :
  CRC8.compute [x31; x32; x33; x34; x35; x36; x37; x38; x39] = 0xF4.
Proof. vm_compute. reflexivity. Qed.

Example legacy_pack :
  fst (CRUMBS.encode_message legacy_message w0)
  = Return [x01; x02; x00; x00; x96; x42; x00; x00; x80; x3f;
            x00; x00; x00; x00; x00; x00; x82; x42; x00; x00;
            x00; x40; x00; x00; xe0; x40; x00].
Proof. vm_compute. reflexivity. Qed.

(* ================================================================== *)
(** ** Lengths of packed items *)

Lemma pack_B_length v bs :
  struct.pack_B v = Return bs -> List.length bs = 1%nat.
Proof.
  unfold struct.pack_B.
  destruct ((0 <=? v) && (v <=? 255)); intros E; inversion E; reflexivity.
Qed.

Lemma pack_f_length x bs :
  struct.pack_f x = Return bs -> List.length bs = 4%nat.
Proof.
  unfold struct.pack_f.
  destruct (struct.float_too_large x); intros E; inversion E; reflexivity.
Qed.

Lemma pack_f_raise x e :
  struct.pack_f x = Raise e ->
  e = OverflowError /\ struct.float_too_large x = true.
Proof.
  unfold struct.pack_f.
  destruct (struct.float_too_large x); intros E; inversion E; auto.
Qed.

Lemma rmap_pack_f_length fs : forall bfs,
  rmap struct.pack_f fs = Return bfs ->
  List.length (List.concat bfs) = (4 * List.length fs)%nat.
Proof.
  induction fs as [|x fs IH]; simpl; intros bfs E.
  - inversion E. reflexivity.
  - destruct (struct.pack_f x) as [bx|] eqn:Ex; simpl in E; [|discriminate].
    destruct (rmap struct.pack_f fs) as [bs|] eqn:Efs; simpl in E;
      [|discriminate].
    inversion E; subst. simpl. rewrite length_app.
    rewrite (pack_f_length _ _ Ex), (IH _ eq_refl). lia.
Qed.

Lemma rmap_pack_f_raise fs : forall e,
  rmap struct.pack_f fs = Raise e ->
  e = OverflowError /\ existsb struct.float_too_large fs = true.
Proof.
  induction fs as [|x fs IH]; simpl; intros e E; [discriminate|].
  destruct (struct.pack_f x) as [bx|e1] eqn:Ex; simpl in E.
  - destruct (rmap struct.pack_f fs) as [bs|e2] eqn:Efs; simpl in E;
      [discriminate|].
    inversion E; subst. destruct (IH _ eq_refl) as [-> ->].
    split; [reflexivity | apply orb_true_r].
  - inversion E; subst. destruct (pack_f_raise _ _ Ex) as [-> ->].
    split; reflexivity.
Qed.

(** [struct.pack] yields [calcsize] bytes, or raises [struct.error], or
    raises [OverflowError] on a float that is too large. *)
Lemma pack_BB6fB_outcome a b fs c :
  match struct.pack_BB6fB a b fs c with
  | Return bs => List.length bs = struct.calcsize
  | Raise e =>
      e = StructError
      \/ (e = OverflowError /\ existsb struct.float_too_large fs = true)
  end.
Proof.
  unfold struct.pack_BB6fB.
  destruct (Nat.eqb (2 + List.length fs + 1) 9) eqn:En; simpl.
  2:{ left; reflexivity. }
  apply Nat.eqb_eq in En.
  destruct (struct.pack_B a) as [b0|e0] eqn:Ea; simpl.
  2:{ left. unfold struct.pack_B in Ea.
      destruct ((0 <=? a) && (a <=? 255)); congruence. }
  destruct (struct.pack_B b) as [b1|e1] eqn:Eb; simpl.
  2:{ left. unfold struct.pack_B in Eb.
      destruct ((0 <=? b) && (b <=? 255)); congruence. }
  destruct (rmap struct.pack_f fs) as [bfs|e2] eqn:Efs; simpl.
  2:{ right. apply rmap_pack_f_raise. exact Efs. }
  destruct (struct.pack_B c) as [b26|e3] eqn:Ec; simpl.
  2:{ left. unfold struct.pack_B in Ec.
      destruct ((0 <=? c) && (c <=? 255)); congruence. }
  rewrite !length_app, (pack_B_length _ _ Ea), (pack_B_length _ _ Eb),
    (pack_B_length _ _ Ec), (rmap_pack_f_length _ _ Efs).
  unfold struct.calcsize. lia.
Qed.

Lemma unpack_BB6fB_returns buffer :
  List.length buffer = struct.calcsize ->
  exists u, struct.unpack_BB6fB buffer = Return u.
Proof.
  intros L. unfold struct.unpack_BB6fB. rewrite L, Nat.eqb_refl. simpl.
  destruct buffer as [|b0 [|b1 rest]]; try discriminate.
  eexists. reflexivity.
Qed.

(* ================================================================== *)
(** ** The codec *)

(** The message class of the package lacks [errorFlags]: the attribute load
    raises before [struct.pack] is called, and [except struct.error] does
    not catch it. *)
Lemma encode_message_package_raises (m : pyCRUMBS.CRUMBSMessage) w :
  CRUMBS.encode_message m w = (Raise AttributeError, w).
Proof. reflexivity. Qed.

(** On the legacy class [encode_message] returns a frame of 27 bytes, or
    the empty bytes after [struct.error], or lets [OverflowError] escape. *)
Lemma encode_message_legacy_outcome (m : Legacy.CRUMBSMessage) w :
  match CRUMBS.encode_message m w with
  | (Return encoded, w') =>
      (List.length encoded = CRUMBS.CRUMBS_MESSAGE_SIZE
       /\ w' = add_log (DEBUG, EncodedMessage) w)
      \/ (encoded = [] /\ w' = add_log (ERROR, EncodingError) w)
  | (Raise e, w') =>
      e = OverflowError
      /\ existsb struct.float_too_large (Legacy.data m) = true
      /\ w' = w
  end.
Proof.
  unfold CRUMBS.encode_message. io_unfold.
  pose proof (pack_BB6fB_outcome (Legacy.typeID m) (Legacy.commandType m)
                (Legacy.data m) (Legacy.errorFlags m)) as P.
  destruct (struct.pack_BB6fB _ _ _ _) as [bs|e]; simpl.
  - left. split; [exact P | reflexivity].
  - destruct P as [->|[-> P]]; simpl.
    + right. split; reflexivity.
    + repeat split; assumption.
Qed.

Lemma decode_message_short {M} `{MessageClass M} (buffer : bytes) w :
  (List.length buffer < CRUMBS.CRUMBS_MESSAGE_SIZE)%nat ->
  CRUMBS.decode_message (M := M) buffer w
  = (Return None, add_log (ERROR, BufferTooSmall) w).
Proof.
  intros L. unfold CRUMBS.decode_message.
  apply Nat.ltb_lt in L. rewrite L. reflexivity.
Qed.

Lemma firstn_size_length (buffer : bytes) :
  (CRUMBS.CRUMBS_MESSAGE_SIZE <= List.length buffer)%nat ->
  List.length (firstn CRUMBS.CRUMBS_MESSAGE_SIZE buffer) = struct.calcsize.
Proof.
  intros L. rewrite length_firstn. unfold struct.calcsize.
  unfold CRUMBS.CRUMBS_MESSAGE_SIZE in *. lia.
Qed.

(** The constructor of the package class has no keyword [errorFlags]: the
    call raises [TypeError], which [except struct.error] does not catch. *)
Lemma decode_message_package_raises (buffer : bytes) w :
  (CRUMBS.CRUMBS_MESSAGE_SIZE <= List.length buffer)%nat ->
  CRUMBS.decode_message (M := pyCRUMBS.CRUMBSMessage) buffer w
  = (Raise TypeError, w).
Proof.
  intros L. unfold CRUMBS.decode_message.
  destruct (Nat.ltb_spec (List.length buffer) CRUMBS.CRUMBS_MESSAGE_SIZE) as [L'|_];
    [lia|].
  destruct (unpack_BB6fB_returns _ (firstn_size_length _ L)) as [[[[u0 u1] u2] u8] U].
  io_unfold. rewrite U. reflexivity.
Qed.

(** With the legacy class every buffer of at least 27 bytes decodes, and
    the message is read off its first 27 bytes. *)
Lemma decode_message_legacy_returns (buffer : bytes) w :
  (CRUMBS.CRUMBS_MESSAGE_SIZE <= List.length buffer)%nat ->
  exists u0 u1 u2 u8,
    struct.unpack_BB6fB (firstn CRUMBS.CRUMBS_MESSAGE_SIZE buffer)
    = Return (u0, u1, u2, u8)
    /\ CRUMBS.decode_message (M := Legacy.CRUMBSMessage) buffer w
       = (Return (Some {| Legacy.typeID := u0; Legacy.commandType := u1;
                          Legacy.data := u2; Legacy.errorFlags := u8 |}),
          add_log (DEBUG, DecodedMessage) w).
Proof.
  intros L. unfold CRUMBS.decode_message.
  destruct (Nat.ltb_spec (List.length buffer) CRUMBS.CRUMBS_MESSAGE_SIZE) as [L'|_];
    [lia|].
  destruct (unpack_BB6fB_returns _ (firstn_size_length _ L)) as [[[[u0 u1] u2] u8] U].
  exists u0, u1, u2, u8. split; [exact U|].
  io_unfold. rewrite U. reflexivity.
Qed.

(** Neither method of the codec reaches the bus driver. *)
Lemma encode_message_calls {M} `{MessageClass M} (m : M) w :
  calls (snd (CRUMBS.encode_message m w)) = calls w.
Proof.
  unfold CRUMBS.encode_message. io_unfold.
  destruct (get_errorFlags m) as [e|x]; simpl.
  - destruct (struct.pack_BB6fB _ _ _ e) as [bs|x]; simpl; [reflexivity|].
    destruct (struct_error x); reflexivity.
  - destruct (struct_error x); reflexivity.
Qed.

Lemma decode_message_calls {M} `{MessageClass M} (buffer : bytes) w :
  calls (snd (CRUMBS.decode_message (M := M) buffer w)) = calls w.
Proof.
  unfold CRUMBS.decode_message.
  destruct (Nat.ltb _ _); [reflexivity|]. io_unfold.
  destruct (struct.unpack_BB6fB _) as [[[[u0 u1] u2] u8]|x]; simpl.
  - destruct (new_errorFlags u0 u1 u2 u8) as [msg|x]; simpl; [reflexivity|].
    destruct (struct_error x); reflexivity.
  - destruct (struct_error x); reflexivity.
Qed.

Lemma new_records_add_log r w : new_records w (add_log r w) = [r].
Proof.
  destruct w as [d c l]. unfold new_records, add_log.
  cbn [log List.length].
  replace (S (List.length l) - List.length l)%nat with 1%nat by lia.
  reflexivity.
Qed.

(** A buffer shorter than 27 bytes is reported as too short. *)
Lemma decode_message_short_fails {M} `{MessageClass M} (buffer : bytes) w :
  (List.length buffer < CRUMBS.CRUMBS_MESSAGE_SIZE)%nat ->
  fails_with FrameTooShort None w (CRUMBS.decode_message (M := M) buffer w).
Proof.
  intros L. rewrite (decode_message_short _ _ L). split; [reflexivity|].
  unfold reported. simpl snd. rewrite new_records_add_log. reflexivity.
Qed.

(** No error text of the sources stands for a checksum mismatch or for an
    invalid address. *)
Lemma reported_kinds w w' f :
  In f (reported w w') ->
  f = FrameTooShort \/ f = NotOpen \/ f = TransportError.
Proof.
  unfold reported. intros I. apply in_flat_map in I.
  destruct I as [[l m] [_ I]].
  destruct l; simpl in I; try contradiction.
  destruct m; simpl in I; intuition (subst; auto).
Qed.

(* ================================================================== *)
(** ** The message model *)

(** C5: for every list of floats given to the constructor of the package's
    CRUMBSMessage, the data of the constructed message has length exactly 7;
    a list of fewer than 7 values is extended with 0.0 up to length 7, the
    given values staying in front in their order; a list of more than 7
    values is cut to its first 7; a list of 7 values is kept.  The
    constructor is a total function: it has no failing path. *)
Theorem post_init_normalizes_data (t c : Z) (d : list float) (k : Z) :
  let m := pyCRUMBS.__init__ t c d k in
  List.length (pyCRUMBS.data m) = 7%nat
  /\ ((List.length d < 7)%nat ->
      pyCRUMBS.data m = d ++ repeat 0%float (7 - List.length d))
  /\ ((7 < List.length d)%nat -> pyCRUMBS.data m = firstn 7 d)
  /\ (List.length d = 7%nat -> pyCRUMBS.data m = d)
  /\ firstn (List.length d) (pyCRUMBS.data m) = firstn 7 d
  /\ pyCRUMBS.typeID m = t
  /\ pyCRUMBS.commandType m = c.
Proof.
  unfold pyCRUMBS.__init__, pyCRUMBS.__post_init__,
    pyCRUMBS.CRUMBS_DATA_LENGTH.
  cbn [pyCRUMBS.data pyCRUMBS.typeID pyCRUMBS.commandType pyCRUMBS.crc8].
  destruct (Nat.eqb_spec (List.length d) 7) as [E|N];
    cbn [negb pyCRUMBS.data pyCRUMBS.typeID pyCRUMBS.commandType].
  - repeat split; intros; try reflexivity; try lia.
    rewrite E. reflexivity.
  - destruct (Nat.ltb_spec (List.length d) 7) as [L|G];
      cbn [pyCRUMBS.data pyCRUMBS.typeID pyCRUMBS.commandType];
      repeat split; intros; try reflexivity; try lia.
    + rewrite length_app, repeat_length. lia.
    + rewrite firstn_app, firstn_all, Nat.sub_diag, firstn_0, app_nil_r.
      symmetry. apply firstn_all2. lia.
    + rewrite length_firstn. lia.
    + rewrite firstn_firstn. f_equal. lia.
Qed.

Example three_values_padded :
  pyCRUMBS.data (pyCRUMBS.__init__ 0 0 [1; 2; 3]%float 0)
  = [1; 2; 3; 0; 0; 0; 0]%float.
Proof. reflexivity. Qed.

Example ten_values_truncated :
  pyCRUMBS.data (pyCRUMBS.__init__ 0 0 [1; 2; 3; 4; 5; 6; 7; 8; 9; 10]%float 0)
  = [1; 2; 3; 4; 5; 6; 7]%float.
Proof. reflexivity. Qed.

(** C9: for every integer given as crc8 to the constructor of the package's
    CRUMBSMessage, the stored crc8 is the given value masked to its low 8
    bits, and so lies in 0-255. *)
Theorem post_init_masks_crc8 (t c : Z) (d : list float) (k : Z) :
  pyCRUMBS.crc8 (pyCRUMBS.__init__ t c d k) = Z.land k 255
  /\ pyCRUMBS.crc8 (pyCRUMBS.__init__ t c d k) = k mod 256
  /\ 0 <= pyCRUMBS.crc8 (pyCRUMBS.__init__ t c d k) <= 255.
Proof.
  assert (E : pyCRUMBS.crc8 (pyCRUMBS.__init__ t c d k) = Z.land k 255).
  { unfold pyCRUMBS.__init__, pyCRUMBS.__post_init__.
    cbn [pyCRUMBS.crc8 pyCRUMBS.data].
    destruct (negb _); reflexivity. }
  assert (M : Z.land k 255 = k mod 256).
  { change 255 with (Z.ones 8). rewrite Z.land_ones by lia. reflexivity. }
  rewrite E, M. repeat split; try reflexivity.
  - apply Z.mod_pos_bound. lia.
  - assert (k mod 256 < 256) by (apply Z.mod_pos_bound; lia). lia.
Qed.

Example crc8_of_minus_one :
  pyCRUMBS.crc8 (pyCRUMBS.__init__ 0 0 [] (-1)) = 255.
Proof. reflexivity. Qed.

(* ================================================================== *)
(** ** The frame codec of the package *)

(** C1, evaluated on the message of the specification's concrete scenario
    (typeID 1, commandType 2, seven floats): the message is well formed, and
    [encode_message] of the package raises AttributeError on it instead of
    returning the 31-byte frame, because it reads [message.errorFlags]. *)
Theorem encode_message_scenario_raises :
  (0 <= pyCRUMBS.typeID scenario_message <= 255
   /\ 0 <= pyCRUMBS.commandType scenario_message <= 255
   /\ List.length (pyCRUMBS.data scenario_message) = 7%nat)
  /\ List.length (Frame.encode scenario_message) = pyCRUMBS.CRUMBS_MESSAGE_SIZE
  /\ forall w,
       CRUMBS.encode_message scenario_message w = (Raise AttributeError, w).
Proof.
  split; [|split].
  - vm_compute. intuition discriminate.
  - vm_compute. reflexivity.
  - intros w. apply encode_message_package_raises.
Qed.

(** C2, evaluated on the same message: decode(encode(m)) raises
    AttributeError in [encode_message]; and [decode_message] applied to the
    31-byte frame that the specification prescribes for the message raises
    TypeError, because it constructs the message with [errorFlags=]. *)
Theorem roundtrip_scenario_raises :
  forall w,
    roundtrip scenario_message w = (Raise AttributeError, w)
    /\ CRUMBS.decode_message (M := pyCRUMBS.CRUMBSMessage)
         (Frame.encode scenario_message) w
       = (Raise TypeError, w).
Proof.
  intros w. split.
  - reflexivity.
  - apply decode_message_package_raises. vm_compute. lia.
Qed.

(** C3, evaluated on a 31-byte frame whose last byte disagrees with the
    CRC-8 of its first 30 bytes: [decode_message] of the package raises
    TypeError and reports nothing; with a message class that has the
    attribute [errorFlags] it returns a message, taking byte 26 (a byte of
    the seventh float) for the errorFlags.  No checksum is computed. *)
Theorem decode_message_corrupted_frame :
  List.length corrupted_frame = 31%nat
  /\ CRC8.compute (firstn 30 corrupted_frame)
     <> Z_of_byte (nth 30 corrupted_frame x00)
  /\ (forall w,
        CRUMBS.decode_message (M := pyCRUMBS.CRUMBSMessage) corrupted_frame w
        = (Raise TypeError, w))
  /\ (forall w,
        CRUMBS.decode_message (M := Legacy.CRUMBSMessage) corrupted_frame w
        = (Return (Some {| Legacy.typeID := 1; Legacy.commandType := 2;
                           Legacy.data := [75; 1; 0; 65; 2; 7]%float;
                           Legacy.errorFlags := 0xC3 |}),
           add_log (DEBUG, DecodedMessage) w)).
Proof.
  split; [|split; [|split]].
  - vm_compute. reflexivity.
  - vm_compute. discriminate.
  - intros w. apply decode_message_package_raises. vm_compute. lia.
  - intros w.
    destruct (decode_message_legacy_returns corrupted_frame w)
      as (u0 & u1 & u2 & u8 & U & D).
    { vm_compute. lia. }
    rewrite D. vm_compute in U. inversion U; subst. reflexivity.
Qed.

(** C4, evaluated on a buffer of 30 bytes (the frame of the scenario
    without its CRC byte): the length guard of [decode_message] compares
    with 27, so the buffer passes it; the package raises TypeError, and with
    the legacy message class a message is returned. *)
Theorem decode_message_truncated_frame :
  List.length truncated_frame = 30%nat
  /\ (forall w,
        CRUMBS.decode_message (M := pyCRUMBS.CRUMBSMessage) truncated_frame w
        = (Raise TypeError, w))
  /\ (forall w,
        CRUMBS.decode_message (M := Legacy.CRUMBSMessage) truncated_frame w
        = (Return (Some {| Legacy.typeID := 1; Legacy.commandType := 2;
                           Legacy.data := [75; 1; 0; 65; 2; 7]%float;
                           Legacy.errorFlags := 0xC3 |}),
           add_log (DEBUG, DecodedMessage) w)).
Proof.
  split; [|split].
  - vm_compute. reflexivity.
  - intros w. apply decode_message_package_raises. vm_compute. lia.
  - intros w.
    destruct (decode_message_legacy_returns truncated_frame w)
      as (u0 & u1 & u2 & u8 & U & D).
    { vm_compute. lia. }
    rewrite D. vm_compute in U. inversion U; subst. reflexivity.
Qed.

(* ================================================================== *)
(** ** The transport *)

Lemma begin_opened :
  CRUMBS.begin (CRUMBS.__init__ 1) w0 = (Return opened_transport, opened_world).
Proof. reflexivity. Qed.

Section Transport_facts.
Context {M : Type} `{MessageClass M}.

(** A transport that was never opened: [request_message] reports that the
    bus is not open and nothing reaches the driver. *)
Lemma request_message_never_opened (self : CRUMBS.t) (addr : Z) w :
  CRUMBS.bus self = None ->
  CRUMBS.Package.request_message (M := M) self addr w
  = (Return None, add_log (ERROR, BusNotOpenRequest) w).
Proof.
  intros B. unfold CRUMBS.Package.request_message. rewrite B. reflexivity.
Qed.

Lemma request_message_never_opened_fails (self : CRUMBS.t) (addr : Z) w :
  CRUMBS.bus self = None ->
  fails_with NotOpen None w
    (CRUMBS.Package.request_message (M := M) self addr w)
  /\ calls (snd (CRUMBS.Package.request_message (M := M) self addr w))
     = calls w.
Proof.
  intros B. rewrite (request_message_never_opened _ _ _ B).
  split; [split|]; try reflexivity.
  unfold reported. simpl snd. rewrite new_records_add_log. reflexivity.
Qed.

(** The same for [send_message], once the message has been encoded to a
    full frame. *)
Lemma send_message_never_opened (self : CRUMBS.t) (message : M) (addr : Z)
    w encoded w1 :
  CRUMBS.bus self = None ->
  CRUMBS.encode_message message w = (Return encoded, w1) ->
  List.length encoded = CRUMBS.CRUMBS_MESSAGE_SIZE ->
  CRUMBS.Package.send_message self message addr w
  = (Return false, add_log (ERROR, BusNotOpenSend) w1).
Proof.
  intros B E L. unfold CRUMBS.Package.send_message.
  unfold bind at 1. rewrite E, L, Nat.eqb_refl, B. reflexivity.
Qed.

Lemma pointer_bytes_short (p : pointer) :
  (List.length (bytes_of_pointer p) < CRUMBS.CRUMBS_MESSAGE_SIZE)%nat.
Proof. destruct p; cbn; unfold CRUMBS.CRUMBS_MESSAGE_SIZE; lia. Qed.

(** The result of [request_message] of the package, case by case.  When the
    transfer completes, the buffer handed to [decode_message] is the value
    of the pointer, 4 or 8 bytes, which the length guard rejects. *)
Lemma request_message_package_eq (self : CRUMBS.t) (addr : Z) w :
  CRUMBS.Package.request_message (M := M) self addr w
  = match CRUMBS.bus self with
    | None => (Return None, add_log (ERROR, BusNotOpenRequest) w)
    | Some h =>
        let read := i2c_msg_read addr CRUMBS.CRUMBS_MESSAGE_SIZE in
        let w1 := add_call (CallRdwr h read) w in
        match on_rdwr (drv w) (calls w) h read with
        | Raise e =>
            if Exception e
            then (Return None, add_log (ERROR, FailedToRequest) w1)
            else (Raise e, w1)
        | Return _ =>
            (Return None,
             add_log (ERROR, BufferTooSmall)
               (add_log (INFO, ReceivedBytes) w1))
        end
    end.
Proof.
  unfold CRUMBS.Package.request_message.
  destruct (CRUMBS.bus self) as [h|]; [|reflexivity].
  unfold try_except, bind, i2c_rdwr, bytes_of_buf, logger, ret. cbn.
  destruct (on_rdwr (drv w) (calls w) h
              (i2c_msg_read addr CRUMBS.CRUMBS_MESSAGE_SIZE)) as [delivered|e].
  - match goal with
    | |- context [CRUMBS.decode_message ?b ?W] =>
        rewrite (decode_message_short (M := M) b W (pointer_bytes_short _))
    end.
    reflexivity.
  - destruct (Exception e); reflexivity.
Qed.

(** The result of [send_message] of the package once the message is
    encoded. *)
Lemma send_message_package_eq (self : CRUMBS.t) (message : M) (addr : Z) w :
  CRUMBS.Package.send_message self message addr w
  = match CRUMBS.encode_message message w with
    | (Raise e, w1) => (Raise e, w1)
    | (Return encoded, w1) =>
        if negb (Nat.eqb (List.length encoded) CRUMBS.CRUMBS_MESSAGE_SIZE)
        then (Return false, add_log (ERROR, SizeMismatch) w1)
        else
          match CRUMBS.bus self with
          | None => (Return false, add_log (ERROR, BusNotOpenSend) w1)
          | Some h =>
              let write := i2c_msg_write addr encoded in
              let w2 := add_call (CallRdwr h write) w1 in
              match on_rdwr (drv w1) (calls w1) h write with
              | Return _ => (Return true, add_log (INFO, MessageSent) w2)
              | Raise e =>
                  if Exception e
                  then (Return false, add_log (ERROR, FailedToSend) w2)
                  else (Raise e, w2)
              end
          end
    end.
Proof.
  unfold CRUMBS.Package.send_message. unfold bind at 1.
  destruct (CRUMBS.encode_message message w) as [[encoded|e] w1];
    [|reflexivity].
  destruct (negb _); [reflexivity|].
  destruct (CRUMBS.bus self) as [h|]; [|reflexivity].
  unfold try_except, bind, i2c_rdwr, logger, ret. cbn.
  destruct (on_rdwr (drv w1) (calls w1) h (i2c_msg_write addr encoded))
    as [buf|e]; [reflexivity|].
  destruct (Exception e); reflexivity.
Qed.

(** A transport with a handle: every [request_message] hands one read of 27
    bytes to the driver, addressed as the caller says. *)
Lemma request_message_calls (self : CRUMBS.t) (h : SMBus) (addr : Z) w :
  CRUMBS.bus self = Some h ->
  calls (snd (CRUMBS.Package.request_message (M := M) self addr w))
  = CallRdwr h (i2c_msg_read addr CRUMBS.CRUMBS_MESSAGE_SIZE) :: calls w.
Proof.
  intros B. rewrite request_message_package_eq, B. cbv zeta.
  destruct (on_rdwr (drv w) (calls w) h _) as [delivered|e]; [reflexivity|].
  destruct (Exception e); reflexivity.
Qed.

(** Every [send_message] of a message that encodes to a full frame hands
    one write of that frame to the driver, addressed as the caller says. *)
Lemma send_message_calls (self : CRUMBS.t) (h : SMBus) (message : M)
    (addr : Z) w encoded w1 :
  CRUMBS.bus self = Some h ->
  CRUMBS.encode_message message w = (Return encoded, w1) ->
  List.length encoded = CRUMBS.CRUMBS_MESSAGE_SIZE ->
  calls (snd (CRUMBS.Package.send_message self message addr w))
  = CallRdwr h (i2c_msg_write addr encoded) :: calls w.
Proof.
  intros B E L.
  pose proof (encode_message_calls message w) as C. rewrite E in C.
  cbn in C. rewrite send_message_package_eq, E, L, Nat.eqb_refl, B.
  cbn [negb]. cbv zeta.
  destruct (on_rdwr (drv w1) (calls w1) h (i2c_msg_write addr encoded))
    as [buf|e]; [cbn; rewrite C; reflexivity|].
  destruct (Exception e); cbn; rewrite C; reflexivity.
Qed.

End Transport_facts.

(** The result of [close], case by case. *)
Lemma close_eq (self : CRUMBS.t) w :
  CRUMBS.close self w
  = match CRUMBS.bus self with
    | None => (Return tt, w)
    | Some h =>
        let w1 := add_call (CallClose h) w in
        if fd_set h w then
          match on_close (drv w) (calls w) h with
          | Return _ =>
              (Return tt,
               add_log (INFO, BusClosed) (clear_fd h (add_os_close h w1)))
          | Raise e => (Raise e, add_os_close h w1)
          end
        else (Return tt, add_log (INFO, BusClosed) w1)
    end.
Proof.
  unfold CRUMBS.close. destruct (CRUMBS.bus self) as [h|]; [|reflexivity].
  unfold bind, SMBus_close, logger. cbv zeta.
  destruct (fd_set h w); [|reflexivity].
  destruct (on_close (drv w) (calls w) h); reflexivity.
Qed.

(** [close] with a handle calls the [close] of the handle, whatever
    happened to the handle before; without a handle it does nothing. *)
Lemma close_calls (self : CRUMBS.t) (h : SMBus) w :
  CRUMBS.bus self = Some h ->
  calls (snd (CRUMBS.close self w)) = CallClose h :: calls w.
Proof.
  intros B. rewrite close_eq, B. cbv zeta.
  destruct (fd_set h w); [|reflexivity].
  destruct (on_close (drv w) (calls w) h); reflexivity.
Qed.

Lemma close_never_opened (self : CRUMBS.t) w :
  CRUMBS.bus self = None -> CRUMBS.close self w = (Return tt, w).
Proof. intros B. rewrite close_eq, B. reflexivity. Qed.

Lemma SMBus_eqb_refl (h : SMBus) : SMBus_eqb h h = true.
Proof.
  unfold SMBus_eqb. rewrite Z.eqb_refl, Nat.eqb_refl. reflexivity.
Qed.

(** After [self.fd = None] the file descriptor is not set. *)
Lemma fd_set_clear_fd (h : SMBus) w : fd_set h (clear_fd h w) = false.
Proof.
  unfold fd_set, clear_fd. cbn [fds].
  induction (fds w) as [|x xs IH]; [reflexivity|].
  cbn [filter]. destruct (SMBus_eqb x h) eqn:E; cbn [negb]; [exact IH|].
  cbn [existsb]. rewrite E, IH. reflexivity.
Qed.

(** C6, evaluated on [c = CRUMBS(1); c.begin(); c.close()] followed by
    [c.request_message(0x08)], and by [c.send_message(m, 0x08)] for a
    message that encodes: [close] leaves the handle in [self.bus], so the
    guard for a bus that is not open does not fire; the transfer is handed
    to the driver and the failure reported is the driver's, not NotOpen. *)
Theorem request_and_send_after_close :
  let h := {| bus_id := 1; serial := 0 |} in
  let req := after_close
               (fun c => CRUMBS.Package.request_message
                           (M := pyCRUMBS.CRUMBSMessage) c 8) w0 in
  let sent := after_close
                (fun c => CRUMBS.Package.send_message c legacy_message 8) w0 in
  (fst req = Return None
   /\ calls (snd req)
      = [CallRdwr h (i2c_msg_read 8 27); CallClose h; CallOpen 1]
   /\ reported w0 (snd req) = [TransportError])
  /\ (fst sent = Return false
      /\ (exists encoded,
            calls (snd sent)
            = [CallRdwr h (i2c_msg_write 8 encoded); CallClose h; CallOpen 1])
      /\ reported w0 (snd sent) = [TransportError]).
Proof.
  cbv zeta. split; split; [| split | | split].
  - vm_compute. reflexivity.
  - vm_compute. reflexivity.
  - vm_compute. reflexivity.
  - vm_compute. reflexivity.
  - eexists. vm_compute. reflexivity.
  - vm_compute. reflexivity.
Qed.

(** C7: calling [close] twice in succession.  For every transport and
    every state of the bus, when the first [close] raises no error the
    second raises none and releases nothing: it calls [os.close] on no file
    descriptor and leaves the file descriptors as they are, because the
    [close] of the handle is guarded by its file descriptor, which the
    first call cleared.  So over the two calls the handle is released at
    most once; on a transport that was never opened neither call does
    anything. *)
Theorem close_twice_releases_once (self : CRUMBS.t) (w : world) :
  fst (CRUMBS.close self w) = Return tt ->
  let w1 := snd (CRUMBS.close self w) in
  fst (CRUMBS.close self w1) = Return tt
  /\ os_closes (snd (CRUMBS.close self w1)) = os_closes w1
  /\ fds (snd (CRUMBS.close self w1)) = fds w1
  /\ (os_closes w1 = os_closes w
      \/ exists h, CRUMBS.bus self = Some h
                   /\ os_closes w1 = h :: os_closes w)
  /\ (CRUMBS.bus self = None -> CRUMBS.close self w1 = (Return tt, w)).
Proof.
  intros R. cbv zeta. revert R. rewrite !close_eq.
  destruct (CRUMBS.bus self) as [h|].
  2:{ intros _. cbn. repeat split; auto. }
  cbv zeta. destruct (fd_set h w) eqn:F.
  - destruct (on_close (drv w) (calls w) h) as [[]|e]; [|discriminate].
    intros _. cbn [snd].
    assert (F' : fd_set h (add_log (INFO, BusClosed)
                             (clear_fd h (add_os_close h
                                            (add_call (CallClose h) w))))
                 = false) by apply (fd_set_clear_fd h).
    rewrite F'. cbn. repeat split; try discriminate.
    right. exists h. split; reflexivity.
  - intros _. cbn [snd].
    assert (F' : fd_set h (add_log (INFO, BusClosed)
                             (add_call (CallClose h) w)) = false)
      by exact F.
    rewrite F'. cbn. repeat split; try discriminate. left. reflexivity.
Qed.

(** C7 on [c = CRUMBS(1); c.begin()] with the healthy driver: the first
    [close] releases the handle, the second releases nothing. *)
Lemma close_twice_releases_once_witness :
  os_closes (snd ((CRUMBS.close opened_transport ;;
                   CRUMBS.close opened_transport) opened_world))
  = [{| bus_id := 1; serial := 0 |}]
  /\ fst ((CRUMBS.close opened_transport ;;
          CRUMBS.close opened_transport) opened_world) = Return tt.
Proof.
  pose proof (close_twice_releases_once opened_transport opened_world
                eq_refl) as T.
  cbv zeta in T. destruct T as (R & O & _ & _ & _).
  unfold bind.
  change (CRUMBS.close opened_transport opened_world)
    with (Return tt, snd (CRUMBS.close opened_transport opened_world)).
  cbv beta iota. rewrite O. split; [reflexivity|].
  destruct (CRUMBS.close opened_transport
              (snd (CRUMBS.close opened_transport opened_world)))
    as [r w2]. exact R.
Defined.

(** C8, as stated, fails on an opened transport at address 0x80, which is
    outside 0x00-0x7F: [request_message] hands a read addressed to 0x80 to
    the driver, and [send_message] hands a write addressed to 0x80 to the
    driver and returns True. *)
Lemma address_0x80_not_rejected :
  ~ (0 <= 0x80 <= 0x7F)
  /\ calls (snd (CRUMBS.Package.request_message
                   (M := pyCRUMBS.CRUMBSMessage)
                   opened_transport 0x80 opened_world))
     = [CallRdwr {| bus_id := 1; serial := 0 |} (I2C_M_RD 0x80 27);
        CallOpen 1]
  /\ calls (snd (CRUMBS.Package.send_message opened_transport legacy_message
                   0x80 opened_world))
     = [CallRdwr {| bus_id := 1; serial := 0 |}
          (I2C_M_WR 0x80 legacy_frame);
        CallOpen 1]
  /\ fst (CRUMBS.Package.send_message opened_transport legacy_message 0x80
            opened_world) = Return true.
Proof.
  split; [lia|]. split; [|split]; vm_compute; reflexivity.
Qed.

(** C8, amended: [send_message] and [request_message] do not check the
    address against 0x00-0x7F and reject no call on its account.  On a
    transport with a handle, for every address, [request_message] hands
    exactly one read of 27 bytes to the driver, and [send_message] of a
    message that encodes to a full frame hands exactly one write of the
    frame to the driver; the message carries the address in its 16-bit
    field, that is the given address modulo 65536. *)
Theorem address_passed_to_driver {M} `{MessageClass M}
    (self : CRUMBS.t) (h : SMBus) (addr : Z) (w : world) :
  CRUMBS.bus self = Some h ->
  calls (snd (CRUMBS.Package.request_message (M := M) self addr w))
  = CallRdwr h (I2C_M_RD (addr mod 65536) 27) :: calls w
  /\ forall (message : M) encoded w1,
       CRUMBS.encode_message message w = (Return encoded, w1) ->
       List.length encoded = CRUMBS.CRUMBS_MESSAGE_SIZE ->
       calls (snd (CRUMBS.Package.send_message self message addr w))
       = CallRdwr h (I2C_M_WR (addr mod 65536) encoded) :: calls w.
Proof.
  intros B. split.
  - apply request_message_calls. exact B.
  - intros message encoded w1 E L.
    eapply send_message_calls; eassumption.
Qed.

(** The amended C8 at address 0x10008 on the opened transport: the driver
    sees address 8. *)
Lemma address_passed_to_driver_witness :
  calls (snd (CRUMBS.Package.request_message (M := pyCRUMBS.CRUMBSMessage)
                opened_transport 0x10008 opened_world))
  = [CallRdwr {| bus_id := 1; serial := 0 |} (I2C_M_RD 8 27); CallOpen 1]
  /\ calls (snd (CRUMBS.Package.send_message opened_transport legacy_message
                   0x10008 opened_world))
     = [CallRdwr {| bus_id := 1; serial := 0 |} (I2C_M_WR 8 legacy_frame);
        CallOpen 1].
Proof.
  split.
  - exact (proj1 (address_passed_to_driver (M := pyCRUMBS.CRUMBSMessage)
                    opened_transport {| bus_id := 1; serial := 0 |} 0x10008
                    opened_world eq_refl)).
  - refine (proj2 (address_passed_to_driver
                     opened_transport {| bus_id := 1; serial := 0 |} 0x10008
                     opened_world eq_refl)
              legacy_message legacy_frame
              (add_log (DEBUG, EncodedMessage) opened_world) _ _).
    + vm_compute. reflexivity.
    + vm_compute. reflexivity.
Defined.

(* ================================================================== *)
(** ** [src/CRUMBS.py]: no partial frame *)

(** C10, evaluated on a message with a float beyond the range of
    binary32: [struct.pack] raises OverflowError, which is not a
    [struct.error], so the [except] clause that turns packing failures into
    the empty byte string misses it and [encode_message] returns nothing at
    all, neither a frame nor the empty byte string. *)
Lemma encode_message_huge_raises :
  fst (CRUMBS.encode_message huge_message w0) = Raise OverflowError
  /\ ~ (exists encoded,
          fst (CRUMBS.encode_message huge_message w0) = Return encoded).
Proof.
  assert (E : fst (CRUMBS.encode_message huge_message w0)
              = Raise OverflowError) by (vm_compute; reflexivity).
  split; [exact E|]. intros [encoded R]. rewrite E in R. discriminate.
Qed.

(** X21: the outcomes of [encode_message] of [src/CRUMBS.py] on a legacy
    message, and what [send_message] makes of them.  [encode_message]
    returns a complete frame of 27 bytes, or returns the empty byte string,
    or raises the OverflowError of a float too large for binary32; it never
    returns a partial frame and never reaches the driver.  When the encoded
    result's length differs from 27, [send_message] logs the size mismatch
    and returns without handing anything to the driver; when
    [encode_message] raises, so does [send_message], again without
    reaching the driver. *)
Theorem encode_message_no_partial_frame (m : Legacy.CRUMBSMessage) (w : world) :
  match CRUMBS.encode_message m w with
  | (Return encoded, w') =>
      (List.length encoded = CRUMBS.CRUMBS_MESSAGE_SIZE \/ encoded = [])
      /\ calls w' = calls w
      /\ forall (self : CRUMBS.t) (addr : Z),
           List.length encoded <> CRUMBS.CRUMBS_MESSAGE_SIZE ->
           CRUMBS.Legacy.send_message self m addr w
           = (Return tt, add_log (ERROR, SizeMismatch) w')
           /\ calls (snd (CRUMBS.Legacy.send_message self m addr w))
              = calls w
  | (Raise e, w') =>
      e = OverflowError
      /\ existsb struct.float_too_large (Legacy.data m) = true
      /\ forall (self : CRUMBS.t) (addr : Z),
           CRUMBS.Legacy.send_message self m addr w = (Raise OverflowError, w)
  end.
Proof.
  pose proof (encode_message_legacy_outcome m w) as O.
  pose proof (encode_message_calls m w) as C.
  destruct (CRUMBS.encode_message m w) as [[encoded|e] w'] eqn:E;
    simpl in C.
  - split; [|split].
    + destruct O as [[L _]|[N _]]; [left|right]; assumption.
    + exact C.
    + intros self addr N.
      assert (S : CRUMBS.Legacy.send_message self m addr w
                  = (Return tt, add_log (ERROR, SizeMismatch) w')).
      { unfold CRUMBS.Legacy.send_message. unfold bind at 1. rewrite E.
        apply Nat.eqb_neq in N. rewrite N. reflexivity. }
      split; [exact S|]. rewrite S. exact C.
  - destruct O as (-> & F & ->). split; [reflexivity|]. split; [exact F|].
    intros self addr. unfold CRUMBS.Legacy.send_message.
    unfold bind at 1. rewrite E. reflexivity.
Qed.

(** X21 on a message whose typeID is 256: the encoded result is empty,
    and [send_message] reports the size mismatch. *)
Lemma encode_message_no_partial_frame_witness :
  CRUMBS.Legacy.send_message (CRUMBS.__init__ 1) wide_message 8 w0
  = (Return tt,
     add_log (ERROR, SizeMismatch) (add_log (ERROR, EncodingError) w0))
  /\ calls (snd (CRUMBS.Legacy.send_message
                   (CRUMBS.__init__ 1) wide_message 8 w0)) = [].
Proof.
  pose proof (encode_message_no_partial_frame wide_message w0) as T.
  change (CRUMBS.encode_message wide_message w0)
    with (@Return bytes [], add_log (ERROR, EncodingError) w0) in T.
  cbv beta iota in T.
  exact (proj2 (proj2 T) (CRUMBS.__init__ 1) 8 (fun E => O_S 26 E)).
Defined.

(* ================================================================== *)
(** ** Further properties of the codec *)

Lemma Z_of_byte_of_Z (v : Z) : Z_of_byte (byte_of_Z v) = v mod 256.
Proof.
  unfold Z_of_byte, byte_of_Z.
  assert (B : 0 <= v mod 256 < 256) by (apply Z.mod_pos_bound; lia).
  destruct (Byte.of_N (Z.to_N (v mod 256))) as [b|] eqn:E.
  - apply Byte.to_of_N in E. rewrite E. apply Z2N.id. lia.
  - apply Byte.of_N_None_iff in E. lia.
Qed.

Lemma Z_of_byte_of_ubyte (v : Z) :
  is_ubyte v = true -> Z_of_byte (byte_of_Z v) = v.
Proof.
  unfold is_ubyte. intros U. rewrite Z_of_byte_of_Z.
  apply Z.mod_small. lia.
Qed.

Lemma Z_of_byte_range (b : byte) : 0 <= Z_of_byte b <= 255.
Proof.
  unfold Z_of_byte. pose proof (Byte.to_N_bounded b). lia.
Qed.

Lemma pack_B_ubyte (v : Z) :
  struct.pack_B v
  = if is_ubyte v then Return [byte_of_Z v] else Raise StructError.
Proof. reflexivity. Qed.

Lemma pack_f_fits (x : float) :
  struct.float_too_large x = false -> struct.pack_f x = Return (binary32_le x).
Proof. unfold struct.pack_f. intros ->. reflexivity. Qed.

Lemma rmap_pack_f_fits (fs : list float) :
  floats_fit fs = true ->
  rmap struct.pack_f fs = Return (List.map binary32_le fs).
Proof.
  induction fs as [|x fs IH]; [reflexivity|].
  unfold floats_fit. cbn [forallb]. intros F.
  apply andb_true_iff in F. destruct F as [Fx Ffs].
  apply negb_true_iff in Fx.
  cbn [rmap List.map]. rewrite (pack_f_fits _ Fx). cbn [rbind].
  rewrite (IH Ffs). reflexivity.
Qed.

Lemma rmap_pack_f_overflow (fs : list float) :
  floats_fit fs = false -> rmap struct.pack_f fs = Raise OverflowError.
Proof.
  induction fs as [|x fs IH]; [discriminate|].
  unfold floats_fit. cbn [forallb rmap]. intros F.
  unfold struct.pack_f at 1.
  destruct (struct.float_too_large x); [reflexivity|].
  cbn [negb andb] in F. cbn [rbind]. rewrite (IH F). reflexivity.
Qed.

(** What [struct.pack] does with the fields of a legacy message. *)
Lemma pack_BB6fB_legacy (m : Legacy.CRUMBSMessage) :
  struct.pack_BB6fB (Legacy.typeID m) (Legacy.commandType m)
    (Legacy.data m) (Legacy.errorFlags m)
  = if pack_struct_error m then Raise StructError
    else if floats_fit (Legacy.data m) then
      Return (byte_of_Z (Legacy.typeID m) :: byte_of_Z (Legacy.commandType m)
              :: List.concat (List.map binary32_le (Legacy.data m))
              ++ [byte_of_Z (Legacy.errorFlags m)])
    else Raise OverflowError.
Proof.
  unfold struct.pack_BB6fB, pack_struct_error.
  replace (Nat.eqb (2 + List.length (Legacy.data m) + 1) 9)
    with (Nat.eqb (List.length (Legacy.data m)) 6).
  2:{ destruct (Nat.eqb_spec (List.length (Legacy.data m)) 6) as [E|N];
      symmetry; [apply Nat.eqb_eq | apply Nat.eqb_neq]; lia. }
  destruct (Nat.eqb (List.length (Legacy.data m)) 6); [|reflexivity].
  rewrite !pack_B_ubyte.
  destruct (is_ubyte (Legacy.typeID m)); [|reflexivity].
  destruct (is_ubyte (Legacy.commandType m)); [|reflexivity].
  cbn [negb orb rbind].
  destruct (floats_fit (Legacy.data m)) eqn:F.
  - rewrite (rmap_pack_f_fits _ F). cbn [rbind andb].
    destruct (is_ubyte (Legacy.errorFlags m)); reflexivity.
  - rewrite (rmap_pack_f_overflow _ F). reflexivity.
Qed.

(** X1: [decode_message] given a buffer of fewer than 27 bytes (the empty
    buffer included) returns None, logs the error "Buffer size too small for
    decoding", and makes no call to the bus driver; this holds for every
    message class. *)
Theorem decode_message_rejects_short_buffer {M} `{MessageClass M}
    (buffer : bytes) (w : world) :
  (List.length buffer < 27)%nat ->
  CRUMBS.decode_message (M := M) buffer w
  = (Return None, add_log (ERROR, BufferTooSmall) w)
  /\ new_records w (snd (CRUMBS.decode_message (M := M) buffer w))
     = [(ERROR, BufferTooSmall)]
  /\ calls (snd (CRUMBS.decode_message (M := M) buffer w)) = calls w.
Proof.
  intros L. rewrite (decode_message_short buffer w L). cbn [snd].
  rewrite new_records_add_log. repeat split.
Qed.

(** X1 on the empty buffer. *)
Lemma decode_message_rejects_short_buffer_witness :
  fst (CRUMBS.decode_message (M := Legacy.CRUMBSMessage) [] w0) = Return None.
Proof.
  rewrite (proj1 (decode_message_rejects_short_buffer
                    (M := Legacy.CRUMBSMessage) [] w0
                    (Nat.lt_0_succ 26))).
  reflexivity.
Defined.

(** X2: [decode_message] reads only the first 27 bytes of its buffer: bytes
    appended to a buffer of 27 bytes change neither the result nor what is
    logged. *)
Theorem decode_message_ignores_trailing_bytes {M} `{MessageClass M}
    (buffer trailing : bytes) (w : world) :
  List.length buffer = 27%nat ->
  CRUMBS.decode_message (M := M) (buffer ++ trailing) w
  = CRUMBS.decode_message (M := M) buffer w.
Proof.
  intros L. unfold CRUMBS.decode_message, CRUMBS.CRUMBS_MESSAGE_SIZE.
  rewrite length_app, L.
  replace (Nat.ltb (27 + List.length trailing) 27) with false
    by (symmetry; apply Nat.ltb_ge; lia).
  rewrite Nat.ltb_irrefl.
  rewrite firstn_app, L, Nat.sub_diag, firstn_0, app_nil_r.
  reflexivity.
Qed.

(** X2 on the frame of [legacy_message] followed by four bytes. *)
Lemma decode_message_ignores_trailing_bytes_witness :
  CRUMBS.decode_message (M := Legacy.CRUMBSMessage)
    (legacy_frame ++ [xde; xad; xbe; xef]) w0
  = CRUMBS.decode_message (M := Legacy.CRUMBSMessage) legacy_frame w0.
Proof.
  exact (decode_message_ignores_trailing_bytes
           (M := Legacy.CRUMBSMessage) legacy_frame [xde; xad; xbe; xef] w0
           eq_refl).
Defined.


Lemma is_ubyte_iff (v : Z) : is_ubyte v = true <-> 0 <= v <= 255.
Proof. unfold is_ubyte. rewrite andb_true_iff. lia. Qed.

(** [encode_message] on a legacy message, in terms of [struct.pack]. *)
Lemma encode_message_legacy_eq (m : Legacy.CRUMBSMessage) w :
  CRUMBS.encode_message m w
  = match struct.pack_BB6fB (Legacy.typeID m) (Legacy.commandType m)
            (Legacy.data m) (Legacy.errorFlags m) with
    | Return encoded => (Return encoded, add_log (DEBUG, EncodedMessage) w)
    | Raise e =>
        if struct_error e then (Return [], add_log (ERROR, EncodingError) w)
        else (Raise e, w)
    end.
Proof.
  unfold CRUMBS.encode_message, try_except, bind, lift, logger, ret.
  cbn [get_errorFlags get_typeID get_commandType get_data Legacy_message].
  destruct (struct.pack_BB6fB _ _ _ _) as [bs|e]; [reflexivity|].
  destruct (struct_error e); reflexivity.
Qed.

Lemma well_formed_no_struct_error (m : Legacy.CRUMBSMessage) :
  is_ubyte (Legacy.typeID m) = true ->
  is_ubyte (Legacy.commandType m) = true ->
  is_ubyte (Legacy.errorFlags m) = true ->
  List.length (Legacy.data m) = 6%nat ->
  pack_struct_error m = false.
Proof.
  intros T C E L. unfold pack_struct_error. rewrite T, C, E, L.
  cbn. apply andb_false_r.
Qed.

Lemma encode_message_legacy_frame (m : Legacy.CRUMBSMessage) w :
  is_ubyte (Legacy.typeID m) = true ->
  is_ubyte (Legacy.commandType m) = true ->
  is_ubyte (Legacy.errorFlags m) = true ->
  List.length (Legacy.data m) = 6%nat ->
  floats_fit (Legacy.data m) = true ->
  CRUMBS.encode_message m w
  = (Return (byte_of_Z (Legacy.typeID m) :: byte_of_Z (Legacy.commandType m)
             :: List.concat (List.map binary32_le (Legacy.data m))
             ++ [byte_of_Z (Legacy.errorFlags m)]),
     add_log (DEBUG, EncodedMessage) w).
Proof.
  intros T C E L F. rewrite encode_message_legacy_eq, pack_BB6fB_legacy.
  rewrite (well_formed_no_struct_error m T C E L), F. reflexivity.
Qed.

(** Six floats, named. *)
Lemma six_floats (fs : list float) :
  List.length fs = 6%nat ->
  exists a b c d e f, fs = [a; b; c; d; e; f].
Proof.
  intros L.
  destruct fs as [|a [|b [|c [|d [|e [|f [|g fs]]]]]]]; try discriminate.
  exists a, b, c, d, e, f. reflexivity.
Qed.

Lemma binary32_le_cells (x : float) :
  exists b0 b1 b2 b3, binary32_le x = [b0; b1; b2; b3].
Proof. unfold binary32_le, le32. do 4 eexists. reflexivity. Qed.

(** X3: for a legacy message whose typeID, commandType and errorFlags lie in
    0-255 and whose data are six floats that fit binary32, [encode_message]
    returns 27 bytes and logs one debug record: byte 0 is the typeID, byte 1
    the commandType, bytes 2+4i to 5+4i are the little-endian binary32 of
    data[i] for i = 0..5, and byte 26 is the errorFlags. *)
Theorem encode_message_legacy_layout (m : Legacy.CRUMBSMessage) (w : world) :
  is_ubyte (Legacy.typeID m) = true ->
  is_ubyte (Legacy.commandType m) = true ->
  is_ubyte (Legacy.errorFlags m) = true ->
  List.length (Legacy.data m) = 6%nat ->
  floats_fit (Legacy.data m) = true ->
  exists encoded,
    CRUMBS.encode_message m w
    = (Return encoded, add_log (DEBUG, EncodedMessage) w)
    /\ List.length encoded = 27%nat
    /\ Z_of_byte (nth 0 encoded x00) = Legacy.typeID m
    /\ Z_of_byte (nth 1 encoded x00) = Legacy.commandType m
    /\ (forall i, (i < 6)%nat ->
          firstn 4 (skipn (2 + 4 * i) encoded)
          = binary32_le (nth i (Legacy.data m) 0%float))
    /\ Z_of_byte (nth 26 encoded x00) = Legacy.errorFlags m.
Proof.
  intros T C E L F. eexists. split.
  { apply encode_message_legacy_frame; assumption. }
  destruct (six_floats _ L) as (a & b & c & d & e & f & D). rewrite D.
  cbn [List.map List.concat].
  destruct (binary32_le_cells a) as (a0 & a1 & a2 & a3 & Ha).
  destruct (binary32_le_cells b) as (b0 & b1 & b2 & b3 & Hb).
  destruct (binary32_le_cells c) as (c0 & c1 & c2 & c3 & Hc).
  destruct (binary32_le_cells d) as (d0 & d1 & d2 & d3 & Hd).
  destruct (binary32_le_cells e) as (e0 & e1 & e2 & e3 & He).
  destruct (binary32_le_cells f) as (f0 & f1 & f2 & f3 & Hf).
  rewrite Ha, Hb, Hc, Hd, He, Hf.
  cbn [app nth List.length].
  rewrite !Z_of_byte_of_ubyte by assumption.
  repeat split.
  intros i I.
  destruct i as [|[|[|[|[|[|i]]]]]]; try lia; cbn [nth];
    rewrite ?Ha, ?Hb, ?Hc, ?Hd, ?He, ?Hf; reflexivity.
Qed.

(** X3 on [legacy_message]. *)
Lemma encode_message_legacy_layout_witness :
  exists encoded,
    fst (CRUMBS.encode_message legacy_message w0) = Return encoded
    /\ firstn 4 (skipn 2 encoded) = [x00; x00; x96; x42].
Proof.
  destruct (encode_message_legacy_layout legacy_message w0
              eq_refl eq_refl eq_refl eq_refl eq_refl)
    as (encoded & E & _ & _ & _ & F & _).
  exists encoded. split.
  - rewrite E. reflexivity.
  - change (skipn 2 encoded) with (skipn (2 + 4 * 0) encoded).
    rewrite (F 0%nat (Nat.lt_0_succ 5)). vm_compute. reflexivity.
Defined.


(** X4: on a legacy message [encode_message] returns the empty byte string
    exactly when [struct.pack] raises [struct.error]: the data do not have
    six elements, or typeID or commandType lies outside 0-255, or all floats
    fit binary32 and errorFlags lies outside 0-255.  In particular a
    message with seven floats encodes to the empty byte string. *)
Theorem encode_message_empty_iff (m : Legacy.CRUMBSMessage) (w : world) :
  fst (CRUMBS.encode_message m w) = Return []
  <-> (List.length (Legacy.data m) <> 6%nat
       \/ ~ (0 <= Legacy.typeID m <= 255)
       \/ ~ (0 <= Legacy.commandType m <= 255)
       \/ (floats_fit (Legacy.data m) = true
           /\ ~ (0 <= Legacy.errorFlags m <= 255))).
Proof.
  rewrite encode_message_legacy_eq, pack_BB6fB_legacy.
  assert (P : pack_struct_error m = true
              <-> (List.length (Legacy.data m) <> 6%nat
                   \/ ~ (0 <= Legacy.typeID m <= 255)
                   \/ ~ (0 <= Legacy.commandType m <= 255)
                   \/ (floats_fit (Legacy.data m) = true
                       /\ ~ (0 <= Legacy.errorFlags m <= 255)))).
  { unfold pack_struct_error.
    rewrite !orb_true_iff, andb_true_iff, !negb_true_iff.
    rewrite Nat.eqb_neq.
    rewrite <- !(is_ubyte_iff (Legacy.typeID m)),
      <- !(is_ubyte_iff (Legacy.commandType m)),
      <- !(is_ubyte_iff (Legacy.errorFlags m)).
    rewrite !not_true_iff_false. tauto. }
  rewrite <- P.
  destruct (pack_struct_error m).
  - cbn. split; reflexivity.
  - destruct (floats_fit (Legacy.data m)); cbn; split; discriminate.
Qed.

Example seven_floats_encode_empty :
  CRUMBS.encode_message seven_float_message w0
  = (Return [], add_log (ERROR, EncodingError) w0).
Proof. reflexivity. Qed.

(** X5: for a legacy message whose typeID, commandType and errorFlags lie in
    0-255 and whose data are six floats that fit binary32,
    decode_message(encode_message(m)) returns a message with the same
    typeID, commandType and errorFlags, whose data are the floats of m in
    order, each one rounded to binary32; two debug records are logged. *)
Theorem legacy_roundtrip (m : Legacy.CRUMBSMessage) (w : world) :
  is_ubyte (Legacy.typeID m) = true ->
  is_ubyte (Legacy.commandType m) = true ->
  is_ubyte (Legacy.errorFlags m) = true ->
  List.length (Legacy.data m) = 6%nat ->
  floats_fit (Legacy.data m) = true ->
  roundtrip m w
  = (Return (Some {| Legacy.typeID := Legacy.typeID m;
                     Legacy.commandType := Legacy.commandType m;
                     Legacy.data := List.map binary32_round (Legacy.data m);
                     Legacy.errorFlags := Legacy.errorFlags m |}),
     add_log (DEBUG, DecodedMessage) (add_log (DEBUG, EncodedMessage) w)).
Proof.
  intros T C E L F. unfold roundtrip, bind.
  rewrite (encode_message_legacy_frame m w T C E L F).
  destruct (six_floats _ L) as (a & b & c & d & e & f & D). rewrite D.
  cbn [List.map List.concat]. unfold binary32_round.
  destruct (binary32_le_cells a) as (a0 & a1 & a2 & a3 & ->).
  destruct (binary32_le_cells b) as (b0 & b1 & b2 & b3 & ->).
  destruct (binary32_le_cells c) as (c0 & c1 & c2 & c3 & ->).
  destruct (binary32_le_cells d) as (d0 & d1 & d2 & d3 & ->).
  destruct (binary32_le_cells e) as (e0 & e1 & e2 & e3 & ->).
  destruct (binary32_le_cells f) as (f0 & f1 & f2 & f3 & ->).
  cbn [app].
  unfold CRUMBS.decode_message, try_except, bind, lift, logger, ret.
  cbn [List.length Nat.ltb Nat.leb CRUMBS.CRUMBS_MESSAGE_SIZE firstn].
  unfold struct.unpack_BB6fB.
  cbn [List.length Nat.eqb struct.calcsize negb struct.chunks4 firstn skipn
       List.map nth new_errorFlags Legacy_message].
  unfold struct.unpack_B.
  rewrite !Z_of_byte_of_ubyte by assumption.
  reflexivity.
Qed.

(** X5 on a message whose floats are not all values of binary32: 3.14 comes
    back as the nearest binary32 value. *)
Lemma legacy_roundtrip_witness :
  fst (roundtrip pi_message w0)
  = Return (Some {| Legacy.typeID := 7; Legacy.commandType := 9;
                    Legacy.data :=
                      [3.1400001049041748; -0.5; 0.0010000000474974513;
                       0; 2; 1e10]%float;
                    Legacy.errorFlags := 255 |}).
Proof.
  rewrite (legacy_roundtrip pi_message w0
             eq_refl eq_refl eq_refl eq_refl eq_refl).
  vm_compute. reflexivity.
Defined.

(** X6: for every buffer of at least 27 bytes [decode_message] with the
    legacy message class returns a message and logs one debug record: the
    typeID is byte 0, the commandType byte 1, data[i] the binary32 held
    little-endian in bytes 2+4i to 5+4i for i = 0..5, the errorFlags byte
    26.  So the data always have six elements and the three byte fields
    lie in 0-255. *)
Theorem decode_message_legacy_layout (buffer : bytes) (w : world) :
  (27 <= List.length buffer)%nat ->
  exists msg,
    CRUMBS.decode_message (M := Legacy.CRUMBSMessage) buffer w
    = (Return (Some msg), add_log (DEBUG, DecodedMessage) w)
    /\ Legacy.typeID msg = Z_of_byte (nth 0 buffer x00)
    /\ Legacy.commandType msg = Z_of_byte (nth 1 buffer x00)
    /\ List.length (Legacy.data msg) = 6%nat
    /\ (forall i, (i < 6)%nat ->
          nth i (Legacy.data msg) 0%float
          = struct.unpack_f (firstn 4 (skipn (2 + 4 * i) buffer)))
    /\ Legacy.errorFlags msg = Z_of_byte (nth 26 buffer x00)
    /\ 0 <= Legacy.typeID msg <= 255
    /\ 0 <= Legacy.commandType msg <= 255
    /\ 0 <= Legacy.errorFlags msg <= 255.
Proof.
  intros L.
  do 27 (destruct buffer as [|? buffer]; [cbn in L; lia|]).
  eexists. split; [reflexivity|].
  cbn [Legacy.typeID Legacy.commandType Legacy.data Legacy.errorFlags
       firstn CRUMBS.CRUMBS_MESSAGE_SIZE nth List.length List.map
       struct.chunks4 skipn].
  unfold struct.unpack_B.
  repeat split; try apply Z_of_byte_range.
  intros i I.
  destruct i as [|[|[|[|[|[|i]]]]]]; try lia; reflexivity.
Qed.

(** X6 on the frame of [legacy_message] followed by four bytes. *)
Lemma decode_message_legacy_layout_witness :
  exists msg,
    fst (CRUMBS.decode_message (M := Legacy.CRUMBSMessage)
           (legacy_frame ++ [xde; xad; xbe; xef]) w0)
    = Return (Some msg)
    /\ Legacy.typeID msg = 1 /\ Legacy.errorFlags msg = 0.
Proof.
  destruct (decode_message_legacy_layout
              (legacy_frame ++ [xde; xad; xbe; xef]) w0)
    as (msg & D & T & _ & _ & _ & E & _).
  { unfold legacy_frame. cbn [List.length app]. lia. }
  exists msg. rewrite D, T, E. repeat split.
Defined.


(* ================================================================== *)
(** ** Further properties of the transport *)

Section Transport_more.
Context {M : Type} `{MessageClass M}.

(** The result of [request_message] of [src/CRUMBS.py], case by case. *)
Lemma request_message_legacy_eq (self : CRUMBS.t) (addr : Z) w :
  CRUMBS.Legacy.request_message (M := M) self addr w
  = match CRUMBS.bus self with
    | None => (Return None, add_log (ERROR, FailedToRequest) w)
    | Some h =>
        let read := i2c_msg_read addr CRUMBS.CRUMBS_MESSAGE_SIZE in
        let w1 := add_call (CallRdwr h read) w in
        match on_rdwr (drv w) (calls w) h read with
        | Raise e =>
            if Exception e
            then (Return None, add_log (ERROR, FailedToRequest) w1)
            else (Raise e, w1)
        | Return buffer =>
            match CRUMBS.decode_message (M := M) buffer
                    (add_log (INFO, ReceivedBytes) w1) with
            | (Return r, w2) => (Return r, w2)
            | (Raise e, w2) =>
                if Exception e
                then (Return None, add_log (ERROR, FailedToRequest) w2)
                else (Raise e, w2)
            end
        end
    end.
Proof.
  unfold CRUMBS.Legacy.request_message.
  destruct (CRUMBS.bus self) as [h|]; [|reflexivity].
  unfold try_except, bind, i2c_rdwr, logger, ret. cbn.
  destruct (on_rdwr (drv w) (calls w) h
              (i2c_msg_read addr CRUMBS.CRUMBS_MESSAGE_SIZE)) as [buffer|e].
  - destruct (CRUMBS.decode_message buffer _) as [[r|e] w2]; [reflexivity|].
    destruct (Exception e); reflexivity.
  - destruct (Exception e); reflexivity.
Qed.

(** The result of [send_message] of [src/CRUMBS.py] once the message is
    encoded. *)
Lemma send_message_legacy_eq (self : CRUMBS.t) (message : M) (addr : Z) w :
  CRUMBS.Legacy.send_message self message addr w
  = match CRUMBS.encode_message message w with
    | (Raise e, w1) => (Raise e, w1)
    | (Return encoded, w1) =>
        if negb (Nat.eqb (List.length encoded) CRUMBS.CRUMBS_MESSAGE_SIZE)
        then (Return tt, add_log (ERROR, SizeMismatch) w1)
        else
          match CRUMBS.bus self with
          | None => (Return tt, add_log (ERROR, FailedToSend) w1)
          | Some h =>
              let write := i2c_msg_write addr encoded in
              let w2 := add_call (CallRdwr h write) w1 in
              match on_rdwr (drv w1) (calls w1) h write with
              | Return _ => (Return tt, add_log (INFO, MessageSent) w2)
              | Raise e =>
                  if Exception e
                  then (Return tt, add_log (ERROR, FailedToSend) w2)
                  else (Raise e, w2)
              end
          end
    end.
Proof.
  unfold CRUMBS.Legacy.send_message. unfold bind at 1.
  destruct (CRUMBS.encode_message message w) as [[encoded|e] w1];
    [|reflexivity].
  destruct (negb _); [reflexivity|].
  destruct (CRUMBS.bus self) as [h|]; [|reflexivity].
  unfold try_except, bind, i2c_rdwr, logger, ret. cbn.
  destruct (on_rdwr (drv w1) (calls w1) h (i2c_msg_write addr encoded))
    as [buf|e]; [reflexivity|].
  destruct (Exception e); reflexivity.
Qed.

(** X7: [request_message] of the package catches every exception that is
    an [Exception]: it raises only when the driver raises, during the
    read, an exception outside [Exception] (a KeyboardInterrupt), which it
    lets through; when the driver raises an [Exception] it logs "Failed to
    request message" and returns None.  In every case at most one transfer
    is handed to the driver, a read of 27 bytes. *)
Theorem request_message_raises_only_interrupts (self : CRUMBS.t) (addr : Z)
    (w : world) :
  (forall e,
     fst (CRUMBS.Package.request_message (M := M) self addr w) = Raise e ->
     Exception e = false
     /\ exists h,
          CRUMBS.bus self = Some h
          /\ on_rdwr (drv w) (calls w) h (i2c_msg_read addr 27) = Raise e)
  /\ (forall h e,
        CRUMBS.bus self = Some h ->
        on_rdwr (drv w) (calls w) h (i2c_msg_read addr 27) = Raise e ->
        Exception e = true ->
        CRUMBS.Package.request_message (M := M) self addr w
        = (Return None,
           add_log (ERROR, FailedToRequest)
             (add_call (CallRdwr h (i2c_msg_read addr 27)) w)))
  /\ (calls (snd (CRUMBS.Package.request_message (M := M) self addr w))
      = calls w
      \/ exists h,
           CRUMBS.bus self = Some h
           /\ calls (snd (CRUMBS.Package.request_message (M := M)
                            self addr w))
              = CallRdwr h (i2c_msg_read addr 27) :: calls w).
Proof.
  rewrite request_message_package_eq. unfold CRUMBS.CRUMBS_MESSAGE_SIZE.
  destruct (CRUMBS.bus self) as [h|].
  2:{ split; [|split].
      - intros e E. discriminate.
      - intros h e B. discriminate.
      - left. reflexivity. }
  cbv zeta.
  destruct (on_rdwr (drv w) (calls w) h (i2c_msg_read addr 27))
    as [delivered|x] eqn:R.
  - split; [|split].
    + intros e E. discriminate.
    + intros h' e B R'. inversion B; subst h'. rewrite R in R'. discriminate.
    + right. exists h. split; reflexivity.
  - destruct (Exception x) eqn:X; (split; [|split]).
    + intros e E. discriminate.
    + intros h' e B R' _. inversion B; subst h'. reflexivity.
    + right. exists h. split; reflexivity.
    + intros e E. cbn in E. inversion E; subst e. split; [exact X|].
      exists h. split; [reflexivity|exact R].
    + intros h' e B R' X'. inversion B; subst h'. rewrite R in R'.
      inversion R'; subst e. rewrite X in X'. discriminate.
    + right. exists h. split; reflexivity.
Qed.

(** X13: [request_message] of [src/CRUMBS.py] raises only exceptions
    outside [Exception] (a KeyboardInterrupt); without a handle the
    AttributeError of [self.bus.i2c_rdwr] is caught like every other
    [Exception].  It hands at most one read of 27 bytes to the driver. *)
Theorem legacy_request_message_raises_only_interrupts (self : CRUMBS.t)
    (addr : Z) (w : world) :
  (forall e,
     fst (CRUMBS.Legacy.request_message (M := M) self addr w) = Raise e ->
     Exception e = false /\ exists h, CRUMBS.bus self = Some h)
  /\ (calls (snd (CRUMBS.Legacy.request_message (M := M) self addr w))
      = calls w
      \/ exists h,
           CRUMBS.bus self = Some h
           /\ calls (snd (CRUMBS.Legacy.request_message (M := M)
                            self addr w))
              = CallRdwr h (i2c_msg_read addr 27) :: calls w).
Proof.
  rewrite request_message_legacy_eq. unfold CRUMBS.CRUMBS_MESSAGE_SIZE.
  destruct (CRUMBS.bus self) as [h|].
  2:{ split; [intros e E; discriminate|left; reflexivity]. }
  cbv zeta.
  destruct (on_rdwr (drv w) (calls w) h (i2c_msg_read addr 27))
    as [buffer|x].
  - match goal with
    | |- context [CRUMBS.decode_message buffer ?W] =>
        pose proof (decode_message_calls (M := M) buffer W) as C;
        destruct (CRUMBS.decode_message (M := M) buffer W) as [[o|x] w2]
    end; cbn in C.
    + split; [intros e E; discriminate|].
      right. exists h. split; [reflexivity|]. cbn. rewrite C. reflexivity.
    + destruct (Exception x) eqn:X; split.
      * intros e E. discriminate.
      * right. exists h. split; [reflexivity|]. cbn. rewrite C. reflexivity.
      * intros e E. cbn in E. inversion E; subst e. split; [exact X|].
        exists h. reflexivity.
      * right. exists h. split; [reflexivity|]. cbn. rewrite C. reflexivity.
  - destruct (Exception x) eqn:X; split.
    + intros e E. discriminate.
    + right. exists h. split; reflexivity.
    + intros e E. cbn in E. inversion E; subst e. split; [exact X|].
      exists h. reflexivity.
    + right. exists h. split; reflexivity.
Qed.

(** X8: [send_message] of the package returns True exactly when the message
    encodes to 27 bytes, the transport holds a handle, and the driver
    completes the write of those bytes at the given address. *)
Theorem send_message_true_iff (self : CRUMBS.t) (message : M) (addr : Z)
    (w : world) :
  fst (CRUMBS.Package.send_message self message addr w) = Return true
  <-> exists encoded w1 h buf,
        CRUMBS.encode_message message w = (Return encoded, w1)
        /\ List.length encoded = 27%nat
        /\ CRUMBS.bus self = Some h
        /\ on_rdwr (drv w1) (calls w1) h (i2c_msg_write addr encoded)
           = Return buf.
Proof.
  rewrite send_message_package_eq.
  destruct (CRUMBS.encode_message message w) as [[encoded|e] w1].
  2:{ split; [discriminate|]. intros (? & ? & ? & ? & E & _). discriminate. }
  destruct (Nat.eqb_spec (List.length encoded) CRUMBS.CRUMBS_MESSAGE_SIZE)
    as [L|N]; cbn [negb].
  2:{ split; [discriminate|].
      intros (? & ? & ? & ? & E & L & _). inversion E; subst.
      contradiction. }
  destruct (CRUMBS.bus self) as [h|].
  2:{ split; [discriminate|]. intros (? & ? & ? & ? & _ & _ & B & _).
      discriminate. }
  cbv zeta.
  destruct (on_rdwr (drv w1) (calls w1) h (i2c_msg_write addr encoded))
    as [buf|e] eqn:R.
  - split; [|reflexivity]. intros _. exists encoded, w1, h, buf.
    repeat split; assumption.
  - split.
    + destruct (Exception e); discriminate.
    + intros (? & ? & ? & ? & E & _ & B & R'). inversion E; subst.
      inversion B; subst. rewrite R in R'. discriminate.
Qed.

(** X9: [send_message] of the package hands at most one transfer to the
    driver, and only a write of exactly 27 bytes (a partial frame never
    reaches the bus).  It raises only when [encode_message] raises, and
    then nothing reaches the driver, or when the driver raises, during the
    write of the 27 bytes, an exception outside [Exception] (a
    KeyboardInterrupt). *)
Theorem send_message_writes_full_frames_only (self : CRUMBS.t)
    (message : M) (addr : Z) (w : world) :
  (calls (snd (CRUMBS.Package.send_message self message addr w)) = calls w
   \/ exists h encoded,
        CRUMBS.bus self = Some h
        /\ List.length encoded = 27%nat
        /\ calls (snd (CRUMBS.Package.send_message self message addr w))
           = CallRdwr h (i2c_msg_write addr encoded) :: calls w)
  /\ forall e,
       fst (CRUMBS.Package.send_message self message addr w) = Raise e ->
       (fst (CRUMBS.encode_message message w) = Raise e
        /\ calls (snd (CRUMBS.Package.send_message self message addr w))
           = calls w)
       \/ (Exception e = false
           /\ exists h encoded w1,
                CRUMBS.encode_message message w = (Return encoded, w1)
                /\ List.length encoded = 27%nat
                /\ CRUMBS.bus self = Some h
                /\ on_rdwr (drv w1) (calls w1) h
                     (i2c_msg_write addr encoded) = Raise e).
Proof.
  pose proof (encode_message_calls message w) as C.
  rewrite send_message_package_eq.
  destruct (CRUMBS.encode_message message w) as [[encoded|x] w1]; cbn in C.
  2:{ split; [left; exact C|]. intros e E. cbn in E. inversion E; subst.
      left. split; [reflexivity|exact C]. }
  destruct (Nat.eqb_spec (List.length encoded) CRUMBS.CRUMBS_MESSAGE_SIZE)
    as [L|N]; cbn [negb].
  2:{ split; [left; exact C|]. intros e E. discriminate. }
  destruct (CRUMBS.bus self) as [h|].
  2:{ split; [left; exact C|]. intros e E. discriminate. }
  cbv zeta.
  destruct (on_rdwr (drv w1) (calls w1) h (i2c_msg_write addr encoded))
    as [buf|x] eqn:R.
  - split; [|intros e E; discriminate].
    right. exists h, encoded. cbn. rewrite C. repeat split. exact L.
  - destruct (Exception x) eqn:X; split.
    + right. exists h, encoded. cbn. rewrite C. repeat split. exact L.
    + intros e E. discriminate.
    + right. exists h, encoded. cbn. rewrite C. repeat split. exact L.
    + intros e E. cbn in E. inversion E; subst e. right.
      split; [exact X|]. exists h, encoded, w1. repeat split; assumption.
Qed.

(** X14: [send_message] of [src/CRUMBS.py] hands at most one transfer to
    the driver, and only a write of exactly 27 bytes.  It raises only when
    [encode_message] raises, and then nothing reaches the driver, or when
    the driver raises, during the write of the 27 bytes, an exception
    outside [Exception] (a KeyboardInterrupt). *)
Theorem legacy_send_message_writes_full_frames_only (self : CRUMBS.t)
    (message : M) (addr : Z) (w : world) :
  (calls (snd (CRUMBS.Legacy.send_message self message addr w)) = calls w
   \/ exists h encoded,
        CRUMBS.bus self = Some h
        /\ List.length encoded = 27%nat
        /\ calls (snd (CRUMBS.Legacy.send_message self message addr w))
           = CallRdwr h (i2c_msg_write addr encoded) :: calls w)
  /\ forall e,
       fst (CRUMBS.Legacy.send_message self message addr w) = Raise e ->
       (fst (CRUMBS.encode_message message w) = Raise e
        /\ calls (snd (CRUMBS.Legacy.send_message self message addr w))
           = calls w)
       \/ (Exception e = false
           /\ exists h encoded w1,
                CRUMBS.encode_message message w = (Return encoded, w1)
                /\ List.length encoded = 27%nat
                /\ CRUMBS.bus self = Some h
                /\ on_rdwr (drv w1) (calls w1) h
                     (i2c_msg_write addr encoded) = Raise e).
Proof.
  pose proof (encode_message_calls message w) as C.
  rewrite send_message_legacy_eq.
  destruct (CRUMBS.encode_message message w) as [[encoded|x] w1]; cbn in C.
  2:{ split; [left; exact C|]. intros e E. cbn in E. inversion E; subst.
      left. split; [reflexivity|exact C]. }
  destruct (Nat.eqb_spec (List.length encoded) CRUMBS.CRUMBS_MESSAGE_SIZE)
    as [L|N]; cbn [negb].
  2:{ split; [left; exact C|]. intros e E. discriminate. }
  destruct (CRUMBS.bus self) as [h|].
  2:{ split; [left; exact C|]. intros e E. discriminate. }
  cbv zeta.
  destruct (on_rdwr (drv w1) (calls w1) h (i2c_msg_write addr encoded))
    as [buf|x] eqn:R.
  - split; [|intros e E; discriminate].
    right. exists h, encoded. cbn. rewrite C. repeat split. exact L.
  - destruct (Exception x) eqn:X; split.
    + right. exists h, encoded. cbn. rewrite C. repeat split. exact L.
    + intros e E. discriminate.
    + right. exists h, encoded. cbn. rewrite C. repeat split. exact L.
    + intros e E. cbn in E. inversion E; subst e. right.
      split; [exact X|]. exists h, encoded, w1. repeat split; assumption.
Qed.

End Transport_more.


(** X10: the transport of the package never delivers a message.
    [request_message] never returns a message, whatever the message class,
    the transport and the driver: when the transfer completes, the buffer
    it decodes is [bytes(read.buf)], the 4 or 8 bytes of a pointer, so
    [decode_message] logs "Buffer size too small for decoding" and None is
    returned.  And with the message class of the package [send_message]
    raises AttributeError before anything is logged or handed to the
    driver. *)
Theorem package_transport_never_delivers {M} `{MessageClass M}
    (self : CRUMBS.t) (addr : Z) (w : world) :
  (forall msg,
     fst (CRUMBS.Package.request_message (M := M) self addr w)
     <> Return (Some msg))
  /\ (forall h delivered,
        CRUMBS.bus self = Some h ->
        on_rdwr (drv w) (calls w) h (i2c_msg_read addr 27)
        = Return delivered ->
        CRUMBS.Package.request_message (M := M) self addr w
        = (Return None,
           add_log (ERROR, BufferTooSmall)
             (add_log (INFO, ReceivedBytes)
                (add_call (CallRdwr h (i2c_msg_read addr 27)) w))))
  /\ forall message : pyCRUMBS.CRUMBSMessage,
       CRUMBS.Package.send_message self message addr w
       = (Raise AttributeError, w).
Proof.
  split; [|split].
  - intros msg. rewrite request_message_package_eq.
    destruct (CRUMBS.bus self) as [h|]; [|discriminate]. cbv zeta.
    destruct (on_rdwr (drv w) (calls w) h _) as [delivered|e];
      [discriminate|].
    destruct (Exception e); discriminate.
  - intros h delivered B R. rewrite request_message_package_eq, B.
    cbv zeta. unfold CRUMBS.CRUMBS_MESSAGE_SIZE. rewrite R. reflexivity.
  - intros message.
    rewrite send_message_package_eq, encode_message_package_raises.
    reflexivity.
Qed.

Example package_request_drops_delivered_frame :
  CRUMBS.Package.request_message (M := Legacy.CRUMBSMessage)
    opened_transport 8 w_frame
  = (Return None,
     add_log (ERROR, BufferTooSmall)
       (add_log (INFO, ReceivedBytes)
          (add_call (CallRdwr {| bus_id := 1; serial := 0 |}
                       (i2c_msg_read 8 27)) w_frame))).
Proof. reflexivity. Qed.

(** X11: on a transport of the package that holds no handle (never
    opened), [request_message] returns None and [send_message], for a
    message that encodes to 27 bytes, returns False; each logs that the
    bus is not open, and nothing reaches the driver. *)
Theorem never_opened_reports_not_open {M} `{MessageClass M}
    (self : CRUMBS.t) (addr : Z) (w : world) :
  CRUMBS.bus self = None ->
  (CRUMBS.Package.request_message (M := M) self addr w
   = (Return None, add_log (ERROR, BusNotOpenRequest) w)
   /\ reported w (snd (CRUMBS.Package.request_message (M := M) self addr w))
      = [NotOpen])
  /\ forall (message : M) encoded w1,
       CRUMBS.encode_message message w = (Return encoded, w1) ->
       List.length encoded = 27%nat ->
       CRUMBS.Package.send_message self message addr w
       = (Return false, add_log (ERROR, BusNotOpenSend) w1)
       /\ calls (snd (CRUMBS.Package.send_message self message addr w))
          = calls w.
Proof.
  intros B. split.
  - rewrite request_message_package_eq, B. split; [reflexivity|].
    unfold reported. cbn [snd]. rewrite new_records_add_log. reflexivity.
  - intros message encoded w1 E L.
    pose proof (encode_message_calls message w) as C.
    rewrite send_message_package_eq, E, L, B. rewrite E in C.
    split; [reflexivity|exact C].
Qed.

(** X11 on a fresh [CRUMBS(1)]. *)
Lemma never_opened_reports_not_open_witness :
  fst (CRUMBS.Package.request_message (M := pyCRUMBS.CRUMBSMessage)
         (CRUMBS.__init__ 1) 8 w0) = Return None
  /\ fst (CRUMBS.Package.send_message (CRUMBS.__init__ 1) legacy_message 8 w0)
     = Return false.
Proof.
  destruct (never_opened_reports_not_open (M := pyCRUMBS.CRUMBSMessage)
              (CRUMBS.__init__ 1) 8 w0 eq_refl) as [[R _] _].
  destruct (never_opened_reports_not_open (M := Legacy.CRUMBSMessage)
              (CRUMBS.__init__ 1) 8 w0 eq_refl) as [_ S].
  destruct (S legacy_message legacy_frame
              (add_log (DEBUG, EncodedMessage) w0) eq_refl eq_refl)
    as [S' _].
  rewrite R, S'. split; reflexivity.
Defined.

(** X12: on a transport of [src/CRUMBS.py] that holds no handle,
    [self.bus.i2c_rdwr] raises AttributeError inside the [try]:
    [request_message] returns None and [send_message], for a message that
    encodes to 27 bytes, returns; each logs its "Failed to ..." error, and
    nothing reaches the driver. *)
Theorem legacy_never_opened_logs_failure {M} `{MessageClass M}
    (self : CRUMBS.t) (addr : Z) (w : world) :
  CRUMBS.bus self = None ->
  CRUMBS.Legacy.request_message (M := M) self addr w
  = (Return None, add_log (ERROR, FailedToRequest) w)
  /\ forall (message : M) encoded w1,
       CRUMBS.encode_message message w = (Return encoded, w1) ->
       List.length encoded = 27%nat ->
       CRUMBS.Legacy.send_message self message addr w
       = (Return tt, add_log (ERROR, FailedToSend) w1)
       /\ calls (snd (CRUMBS.Legacy.send_message self message addr w))
          = calls w.
Proof.
  intros B. split.
  - rewrite request_message_legacy_eq, B. reflexivity.
  - intros message encoded w1 E L.
    pose proof (encode_message_calls message w) as C.
    rewrite send_message_legacy_eq, E, L, B. rewrite E in C.
    split; [reflexivity|exact C].
Qed.

(** X12 on a fresh [CRUMBS(1)]. *)
Lemma legacy_never_opened_logs_failure_witness :
  log (snd (CRUMBS.Legacy.request_message (M := Legacy.CRUMBSMessage)
              (CRUMBS.__init__ 1) 8 w0))
  = [(ERROR, FailedToRequest)]
  /\ log (snd (CRUMBS.Legacy.send_message (CRUMBS.__init__ 1)
                 legacy_message 8 w0))
     = [(ERROR, FailedToSend); (DEBUG, EncodedMessage)].
Proof.
  destruct (legacy_never_opened_logs_failure (M := Legacy.CRUMBSMessage)
              (CRUMBS.__init__ 1) 8 w0 eq_refl) as [R S].
  destruct (S legacy_message legacy_frame
              (add_log (DEBUG, EncodedMessage) w0) eq_refl eq_refl)
    as [S' _].
  rewrite R, S'. split; reflexivity.
Defined.

(** X15: on a transport that holds a handle, when the driver completes the
    read, [request_message] of [src/CRUMBS.py] (with the legacy message
    class) logs the reception and returns what [decode_message] returns on
    the bytes delivered: a message for 27 bytes or more, None for fewer. *)
Theorem legacy_request_message_decodes_delivery (self : CRUMBS.t)
    (h : SMBus) (addr : Z) (w : world) (buffer : bytes) :
  CRUMBS.bus self = Some h ->
  on_rdwr (drv w) (calls w) h (i2c_msg_read addr 27) = Return buffer ->
  let w1 := add_log (INFO, ReceivedBytes)
              (add_call (CallRdwr h (i2c_msg_read addr 27)) w) in
  CRUMBS.Legacy.request_message (M := Legacy.CRUMBSMessage) self addr w
  = CRUMBS.decode_message buffer w1
  /\ ((27 <= List.length buffer)%nat ->
      exists msg,
        fst (CRUMBS.decode_message (M := Legacy.CRUMBSMessage) buffer w1)
        = Return (Some msg))
  /\ ((List.length buffer < 27)%nat ->
      fst (CRUMBS.decode_message (M := Legacy.CRUMBSMessage) buffer w1)
      = Return None).
Proof.
  intros B R w1. unfold w1. clear w1.
  set (w1 := add_log (INFO, ReceivedBytes)
               (add_call (CallRdwr h (i2c_msg_read addr 27)) w)).
  assert (D : exists r w2,
             CRUMBS.decode_message (M := Legacy.CRUMBSMessage) buffer w1
             = (Return r, w2)).
  { destruct (Nat.lt_ge_cases (List.length buffer) 27) as [S|G].
    - rewrite (decode_message_short buffer _ S). do 2 eexists. reflexivity.
    - destruct (decode_message_legacy_returns buffer w1 G)
        as (? & ? & ? & ? & _ & E).
      rewrite E. do 2 eexists. reflexivity. }
  destruct D as (r & w2 & D).
  split; [|split].
  - rewrite request_message_legacy_eq, B. cbv zeta.
    unfold CRUMBS.CRUMBS_MESSAGE_SIZE. rewrite R. fold w1.
    rewrite D. reflexivity.
  - intros G.
    destruct (decode_message_legacy_returns buffer w1 G)
      as (? & ? & ? & ? & _ & E).
    rewrite E. eexists. reflexivity.
  - intros S. rewrite (decode_message_short buffer _ S). reflexivity.
Qed.

(** X15 with a driver that delivers the frame of [legacy_message] followed
    by four bytes. *)
Lemma legacy_request_message_decodes_delivery_witness :
  fst (CRUMBS.Legacy.request_message (M := Legacy.CRUMBSMessage)
         opened_transport 8 w_frame)
  = Return (Some legacy_message).
Proof.
  rewrite (proj1 (legacy_request_message_decodes_delivery opened_transport
                    {| bus_id := 1; serial := 0 |} 8 w_frame
                    (legacy_frame ++ [xde; xad; xbe; xef])
                    eq_refl eq_refl)).
  vm_compute. reflexivity.
Defined.

(** X16: a whole session on a driver that opens the bus.  When the read is
    not interrupted (the driver raises nothing outside [Exception] during
    it), [begin] on a fresh [CRUMBS(n)], then [request_message], then
    [close] hand to the driver exactly an open of bus n, one read of 27
    bytes at the given address and one close, in this order and all on the
    handle that [begin] made, whatever else the driver answers to the read
    and to the close. *)
Theorem session_calls {M} `{MessageClass M} (n addr : Z) (w : world) :
  let h := {| bus_id := n; serial := List.length (calls w) |} in
  on_open (drv w) (calls w) n = Return tt ->
  (forall e,
     on_rdwr (drv w) (CallOpen n :: calls w) h (i2c_msg_read addr 27)
     = Raise e ->
     Exception e = true) ->
  calls (snd ((c <- CRUMBS.begin (CRUMBS.__init__ n) ;;
               CRUMBS.Package.request_message (M := M) c addr ;;
               CRUMBS.close c) w))
  = CallClose h :: CallRdwr h (i2c_msg_read addr 27)
    :: CallOpen n :: calls w.
Proof.
  intros h O X. unfold bind at 1.
  unfold CRUMBS.begin, CRUMBS.__init__, bind, SMBus_new, logger, ret.
  cbn [CRUMBS.bus_number]. rewrite O. fold h.
  set (c := {| CRUMBS.bus_number := n; CRUMBS.bus := Some h |}).
  set (W := add_log (INFO, BusOpened) (set_fd h (add_call (CallOpen n) w))).
  rewrite request_message_package_eq.
  change (CRUMBS.bus c) with (Some h). cbv zeta.
  change (drv W) with (drv w). change (calls W) with (CallOpen n :: calls w).
  unfold CRUMBS.CRUMBS_MESSAGE_SIZE.
  destruct (on_rdwr (drv w) (CallOpen n :: calls w) h (i2c_msg_read addr 27))
    as [delivered|e] eqn:R.
  - rewrite (close_calls c h _ eq_refl). reflexivity.
  - rewrite (X e eq_refl). rewrite (close_calls c h _ eq_refl). reflexivity.
Qed.

(** X16 on the healthy driver, bus 1, address 8. *)
Lemma session_calls_witness :
  calls (snd ((c <- CRUMBS.begin (CRUMBS.__init__ 1) ;;
               CRUMBS.Package.request_message (M := Legacy.CRUMBSMessage)
                 c 8 ;;
               CRUMBS.close c) w0))
  = [CallClose {| bus_id := 1; serial := 0 |};
     CallRdwr {| bus_id := 1; serial := 0 |} (i2c_msg_read 8 27);
     CallOpen 1].
Proof.
  apply (session_calls (M := Legacy.CRUMBSMessage) 1 8 w0 eq_refl).
  intros e E. vm_compute in E. discriminate E.
Defined.

(** An interrupted read ends the session before [close]. *)
Example interrupted_session :
  (c <- CRUMBS.begin (CRUMBS.__init__ 1) ;;
   CRUMBS.Package.request_message (M := Legacy.CRUMBSMessage) c 8 ;;
   CRUMBS.close c) w_interrupted
  = (Raise KeyboardInterrupt,
     add_call (CallRdwr {| bus_id := 1; serial := 0 |} (i2c_msg_read 8 27))
       (add_log (INFO, BusOpened)
          (set_fd {| bus_id := 1; serial := 0 |}
             (add_call (CallOpen 1) w_interrupted)))).
Proof. reflexivity. Qed.

(** X17: for every driver, a transfer asked after [close] still reaches the
    driver: on a transport that holds a handle, when [close] returns,
    a following [request_message] hands its read to the driver on the
    closed handle, and a following [send_message] of a message that encodes
    to 27 bytes hands its write to it. *)
Theorem transfer_after_close_reaches_driver {M} `{MessageClass M}
    (self : CRUMBS.t) (h : SMBus) (addr : Z) (w : world) :
  CRUMBS.bus self = Some h ->
  fst (CRUMBS.close self w) = Return tt ->
  calls (snd ((CRUMBS.close self ;;
               CRUMBS.Package.request_message (M := M) self addr) w))
  = CallRdwr h (i2c_msg_read addr 27) :: CallClose h :: calls w
  /\ forall (message : M) encoded w1,
       CRUMBS.encode_message message (snd (CRUMBS.close self w))
       = (Return encoded, w1) ->
       List.length encoded = 27%nat ->
       calls (snd ((CRUMBS.close self ;;
                    CRUMBS.Package.send_message self message addr) w))
       = CallRdwr h (i2c_msg_write addr encoded) :: CallClose h :: calls w.
Proof.
  intros B R. pose proof (close_calls self h w B) as C.
  unfold bind. destruct (CRUMBS.close self w) as [[[]|e] wc];
    cbn in R, C; [|discriminate].
  split.
  - rewrite (request_message_calls self h addr wc B), C. reflexivity.
  - intros message encoded w1 E L. cbn [snd] in E.
    rewrite (send_message_calls self h message addr wc encoded w1 B E L), C.
    reflexivity.
Qed.

(** X17 on the opened transport of the healthy driver. *)
Lemma transfer_after_close_reaches_driver_witness :
  calls (snd ((CRUMBS.close opened_transport ;;
               CRUMBS.Package.request_message (M := pyCRUMBS.CRUMBSMessage)
                 opened_transport 8) opened_world))
  = [CallRdwr {| bus_id := 1; serial := 0 |} (i2c_msg_read 8 27);
     CallClose {| bus_id := 1; serial := 0 |}; CallOpen 1].
Proof.
  exact (proj1 (transfer_after_close_reaches_driver
                  (M := pyCRUMBS.CRUMBSMessage)
                  opened_transport {| bus_id := 1; serial := 0 |} 8 opened_world
                  eq_refl eq_refl)).
Defined.

(* ================================================================== *)
(** ** Further properties of the message model *)

Lemma post_init_data_length (m : pyCRUMBS.CRUMBSMessage) :
  List.length (pyCRUMBS.data (pyCRUMBS.__post_init__ m)) = 7%nat.
Proof.
  unfold pyCRUMBS.__post_init__, pyCRUMBS.CRUMBS_DATA_LENGTH.
  destruct (Nat.eqb_spec (List.length (pyCRUMBS.data m)) 7) as [E|N];
    cbn [negb pyCRUMBS.data]; [exact E|].
  destruct (Nat.ltb_spec (List.length (pyCRUMBS.data m)) 7) as [L|G];
    cbn [pyCRUMBS.data].
  - rewrite length_app, repeat_length. lia.
  - rewrite length_firstn. lia.
Qed.

Lemma post_init_well_formed (m : pyCRUMBS.CRUMBSMessage) :
  List.length (pyCRUMBS.data m) = 7%nat ->
  0 <= pyCRUMBS.crc8 m <= 255 ->
  pyCRUMBS.__post_init__ m = m.
Proof.
  intros L K. destruct m as [t c d k]. cbn in L, K.
  unfold pyCRUMBS.__post_init__, pyCRUMBS.CRUMBS_DATA_LENGTH.
  cbn [pyCRUMBS.data pyCRUMBS.typeID pyCRUMBS.commandType pyCRUMBS.crc8].
  rewrite L. cbn [Nat.eqb negb pyCRUMBS.data pyCRUMBS.typeID
                  pyCRUMBS.commandType pyCRUMBS.crc8].
  f_equal. change 255 with (Z.ones 8). rewrite Z.land_ones by lia.
  apply Z.mod_small. lia.
Qed.

(** X20: [__post_init__] is idempotent, and it leaves unchanged every
    message that already has seven data values and a crc8 in 0-255; so
    every constructed message is a fixed point of the normalization. *)
Theorem post_init_idempotent (m : pyCRUMBS.CRUMBSMessage) :
  pyCRUMBS.__post_init__ (pyCRUMBS.__post_init__ m) = pyCRUMBS.__post_init__ m
  /\ (List.length (pyCRUMBS.data m) = 7%nat ->
      0 <= pyCRUMBS.crc8 m <= 255 ->
      pyCRUMBS.__post_init__ m = m).
Proof.
  split; [|apply post_init_well_formed].
  apply post_init_well_formed; [apply post_init_data_length|].
  assert (K : pyCRUMBS.crc8 (pyCRUMBS.__post_init__ m)
              = Z.land (pyCRUMBS.crc8 m) 255).
  { unfold pyCRUMBS.__post_init__. cbn [pyCRUMBS.crc8].
    destruct (negb _); reflexivity. }
  rewrite K.
  assert (E : Z.land (pyCRUMBS.crc8 m) 255 = pyCRUMBS.crc8 m mod 256).
  { change 255 with (Z.ones 8). rewrite Z.land_ones by lia. reflexivity. }
  rewrite E. pose proof (Z.mod_pos_bound (pyCRUMBS.crc8 m) 256). lia.
Qed.


(* ================================================================== *)
(** ** [examples/leader_example.py]: [parse_message] *)

Section Parse_message.
Variable strip : string -> string.
Variable int_ : string -> Z -> option Z.
Variable float_ : string -> option float.

Lemma split_comma_length (s : string) :
  List.length (LeaderExample.split_comma s) = S (LeaderExample.commas s).
Proof.
  induction s as [|c s IH]; [reflexivity|].
  cbn [LeaderExample.split_comma LeaderExample.commas].
  destruct (Ascii.eqb c ","%char).
  - cbn [List.length]. rewrite IH. reflexivity.
  - destruct (LeaderExample.split_comma s) as [|p ps]; [discriminate|].
    cbn [List.length] in *. cbn. exact IH.
Qed.

Lemma floats_of_length (xs : list string) : forall fs,
  LeaderExample.floats_of strip float_ xs = Some fs ->
  List.length fs = List.length xs.
Proof.
  induction xs as [|x xs IH]; cbn [LeaderExample.floats_of]; intros fs E.
  - inversion E. reflexivity.
  - destruct (float_ (strip x)) as [f|]; [|discriminate].
    destruct (LeaderExample.floats_of strip float_ xs) as [fs'|];
      [|discriminate].
    inversion E; subst. cbn. rewrite (IH fs' eq_refl). reflexivity.
Qed.

(** X18: [parse_message] returns (None, None) and logs the number of
    fields it found whenever the text does not hold exactly nine commas,
    that is ten comma-separated fields; no field is parsed then. *)
Theorem parse_message_wrong_field_count (input_str : string) :
  LeaderExample.commas input_str <> 9%nat ->
  LeaderExample.parse_message strip int_ float_ input_str
  = ((None, None),
     [LeaderExample.IncorrectFieldCount (S (LeaderExample.commas input_str))]).
Proof.
  intros N. unfold LeaderExample.parse_message.
  rewrite split_comma_length.
  destruct (Nat.eqb_spec (S (LeaderExample.commas input_str)) 10) as [E|_];
    [lia|reflexivity].
Qed.

(** X19: [parse_message] returns either (None, None) with one error logged,
    or an address together with a message and nothing logged.  In the
    second case the text holds ten fields, the address is field 0 read in
    base 16 when the stripped field begins with 0x or 0X and in base 10
    otherwise, typeID and commandType are fields 1 and 2 read in base 10,
    the data of the message are exactly the seven floats of fields 3 to 9
    in order (the constructor neither pads nor truncates them), and its
    crc8 is 0. *)
Theorem parse_message_result (input_str : string) :
  let parts := LeaderExample.split_comma input_str in
  (exists e,
     LeaderExample.parse_message strip int_ float_ input_str
     = ((None, None), [e]))
  \/ (exists target_address msg,
        LeaderExample.parse_message strip int_ float_ input_str
        = ((Some target_address, Some msg), [])
        /\ List.length parts = 10%nat
        /\ int_ (strip (nth 0 parts EmptyString))
             (if LeaderExample.lower_startswith_0x
                   (strip (nth 0 parts EmptyString))
              then 16 else 10)
           = Some target_address
        /\ int_ (strip (nth 1 parts EmptyString)) 10
           = Some (pyCRUMBS.typeID msg)
        /\ int_ (strip (nth 2 parts EmptyString)) 10
           = Some (pyCRUMBS.commandType msg)
        /\ LeaderExample.floats_of strip float_ (firstn 7 (skipn 3 parts))
           = Some (pyCRUMBS.data msg)
        /\ List.length (pyCRUMBS.data msg) = 7%nat
        /\ pyCRUMBS.crc8 msg = 0).
Proof.
  cbv zeta. unfold LeaderExample.parse_message.
  destruct (Nat.eqb_spec
              (List.length (LeaderExample.split_comma input_str)) 10)
    as [L|N]; cbn [negb].
  2:{ left. eexists. reflexivity. }
  unfold LeaderExample.parse_fields.
  set (parts := LeaderExample.split_comma input_str) in *.
  set (a_str := strip (nth 0 parts EmptyString)).
  assert (A : (if LeaderExample.lower_startswith_0x a_str
               then int_ a_str 16 else int_ a_str 10)
              = int_ a_str (if LeaderExample.lower_startswith_0x a_str
                            then 16 else 10))
    by (destruct (LeaderExample.lower_startswith_0x a_str); reflexivity).
  rewrite A. clear A.
  set (base := if LeaderExample.lower_startswith_0x a_str then 16 else 10).
  destruct (int_ a_str base) as [a|] eqn:Ea; [|left; eexists; reflexivity].
  destruct (int_ (strip (nth 1 parts EmptyString)) 10) as [t|] eqn:Et;
    [|left; eexists; reflexivity].
  destruct (int_ (strip (nth 2 parts EmptyString)) 10) as [c|] eqn:Ec;
    [|left; eexists; reflexivity].
  destruct (LeaderExample.floats_of strip float_ (firstn 7 (skipn 3 parts)))
    as [fs|] eqn:Ef; [|left; eexists; reflexivity].
  right. exists a, (pyCRUMBS.__init__ t c fs 0).
  assert (Lfs : List.length fs = 7%nat).
  { rewrite (floats_of_length _ _ Ef), length_firstn, length_skipn, L.
    reflexivity. }
  assert (P : pyCRUMBS.__init__ t c fs 0
              = {| pyCRUMBS.typeID := t; pyCRUMBS.commandType := c;
                   pyCRUMBS.data := fs; pyCRUMBS.crc8 := 0 |}).
  { unfold pyCRUMBS.__init__. apply post_init_well_formed; cbn; [exact Lfs|lia]. }
  rewrite P. cbn [pyCRUMBS.typeID pyCRUMBS.commandType pyCRUMBS.data
                  pyCRUMBS.crc8].
  repeat split; assumption.
Qed.

End Parse_message.

(** X18 on the text of a request command, with builtins that parse
    nothing. *)
Lemma parse_message_wrong_field_count_witness :
  LeaderExample.parse_message (fun s => s) (fun _ _ => None) (fun _ => None)
    "request,0x08"
  = ((None, None), [LeaderExample.IncorrectFieldCount 2]).
Proof.
  apply (parse_message_wrong_field_count
           (fun s => s) (fun _ _ => None) (fun _ => None) "request,0x08").
  cbn. intros E. discriminate E.
Defined.

Example parse_message_accepts_ten_fields :
  LeaderExample.parse_message (fun s => s)
    (fun s base => Some (Z.of_nat (String.length s) + base))
    (fun _ => Some 0%float)
    "0x08,1,1,75.0,1.0,0.0,65.0,2.0,7.0,3.14"
  = ((Some 20,
      Some {| pyCRUMBS.typeID := 11; pyCRUMBS.commandType := 11;
              pyCRUMBS.data := repeat 0%float 7; pyCRUMBS.crc8 := 0 |}),
     []).
Proof. reflexivity. Qed.
